(** * Dissociation queries of [app.py]

    A shallow embedding of the two dissociation endpoints of the Flask
    application ([dissociate_by_terms] and [dissociate_by_coordinates]),
    of the SQL they send to the store, and of the response envelopes they
    build, followed by the properties the design document states about
    them.

    Modelling conventions.
    - Python [str] and SQL [text] are [string]; case folding ([LOWER])
      acts on the ASCII letters.
    - A Python [float] is a finite number, kept as an exact rational [Q],
      an infinity or not-a-number.  The built-in conversion [float(s)] is
      not code of this repository: it is a parameter [py_float] of the
      coordinate endpoint.
    - Study identifiers are any type with decidable equality and a
      decidable total order (the order [ORDER BY study_id] sorts by);
      [study_id] columns are never NULL.
    - The store's spatial predicate [ST_DWithin] compares the distance of
      the geometry extension with the tolerance; the squared distance is a
      parameter, instantiated with the 3-D Euclidean one in the examples.
      A tolerance is a non-negative rational, the store refusing any
      other.
      A reachable store is taken to have its tables and to answer the
      statements it is sent.
    - A handler runs in a process state (the module-level [_engine] and the
      trace of statements sent to the store) against a world (the
      environment variable [DB_URL] and what connecting yields). *)

From Stdlib Require Import Ascii String QArith.
From stdpp Require Import base decidable option list sorting gmap strings numbers.

Local Open Scope string_scope.

(** ** Python strings *)

Module Py.

(** [s.replace(old, new)] for one-character [old] and [new]. *)
Fixpoint replace (old new : ascii) (s : string) : string :=
  match s with
  | EmptyString => EmptyString
  | String c r =>
      String (if Ascii.eqb c old then new else c) (replace old new r)
  end.

(** [s.split(sep)] for a one-character separator: never the empty list. *)
Fixpoint split (sep : ascii) (s : string) : list string :=
  match s with
  | EmptyString => [EmptyString]
  | String c r =>
      if Ascii.eqb c sep then EmptyString :: split sep r
      else match split sep r with
           | h :: t => String c h :: t
           | [] => [String c EmptyString]
           end
  end.

(** A [float]: a finite number, an infinity or not-a-number.  Finite
    values are kept as exact rationals. *)
Inductive Float :=
| Finite (q : Q)
| Infinity (negative : bool)
| NaN.

(** Exceptions, by class, with [str(e)]. *)
Inductive ExnClass := ValueError | RuntimeError | OperationalError.

Record Exn := mkExn { exn_class : ExnClass; exn_str : string }.

Inductive Outcome (A : Type) :=
| Return (a : A)
| Raise (e : Exn).
Arguments Return {A} a.
Arguments Raise {A} e.

(** [s.startswith(p)] *)
Definition startswith (p s : string) : bool := String.prefix p s.

(** [s[n:]] *)
Definition drop (n : nat) (s : string) : string :=
  String.substring n (String.length s - n) s.

End Py.

(** ** SQL text functions *)

Module Sql.

Definition lower_ascii (c : ascii) : ascii :=
  let n := N_of_ascii c in
  if ((65 <=? n) && (n <=? 90))%N then ascii_of_N (n + 32) else c.

(** [LOWER(t)] *)
Fixpoint LOWER (t : string) : string :=
  match t with
  | EmptyString => EmptyString
  | String c r => String (lower_ascii c) (LOWER r)
  end.

End Sql.

(** ** Study identifiers *)

Class StudyKey (K : Type) := {
  key_eq_dec :: EqDecision K;
  key_le : relation K;
  key_le_dec :: RelDecision key_le;
  key_le_trans :: Transitive key_le;
  key_le_antisym :: AntiSymm (=) key_le;
  key_le_total :: Total key_le
}.

#[export] Instance Z_StudyKey : StudyKey Z := {|
  key_le := Z.le
|}.

(** ** The store: the two tables the dissociation queries read *)

Coercion Py.Finite : Q >-> Py.Float.
Bind Scope Q_scope with Py.Float.

Record Point := mkPoint { px : Py.Float; py : Py.Float; pz : Py.Float }.

(** A row of [ns.annotations_terms]; the columns [contrast_id] and
    [weight] are not read by the dissociation queries. *)
Record AnnotationTerm (K : Type) := mkAnnotationTerm {
  at_study_id : K;
  at_term : string
}.
Arguments mkAnnotationTerm {K} _ _.
Arguments at_study_id {K} _.
Arguments at_term {K} _.

(** A row of [ns.coordinates]. *)
Record Coordinate (K : Type) := mkCoordinate {
  c_study_id : K;
  c_geom : Point
}.
Arguments mkCoordinate {K} _ _.
Arguments c_study_id {K} _.
Arguments c_geom {K} _.

Record Store (K : Type) := mkStore {
  annotations_terms : list (AnnotationTerm K);
  coordinates : list (Coordinate K)
}.
Arguments mkStore {K} _ _.
Arguments annotations_terms {K} _.
Arguments coordinates {K} _.

(** ** The term queries *)

Section TermQueries.
Context {K : Type} `{StudyKey K}.

(** [SELECT DISTINCT ... ORDER BY study_id] over already selected ids. *)
Definition distinct_ordered (ids : list K) : list K :=
  merge_sort key_le (remove_dups ids).

(** [SELECT study_id FROM ns.annotations_terms WHERE LOWER(term) = LOWER(:t)] *)
Definition term_subquery (s : Store K) (t : string) : list K :=
  at_study_id <$>
    filter (λ r, Sql.LOWER (at_term r) = Sql.LOWER t) (annotations_terms s).

(** The text bound to [a_not_b_query], with its two named parameters.
    No [study_id] being NULL, [NOT IN] is plain non-membership. *)
Definition a_not_b_query (s : Store K) (term_a term_b : string) : list K :=
  distinct_ordered
    (at_study_id <$>
       filter (λ a1, Sql.LOWER (at_term a1) = Sql.LOWER term_a
                     ∧ at_study_id a1 ∉ term_subquery s term_b)
              (annotations_terms s)).

(** The text bound to [b_not_a_query], with its two named parameters. *)
Definition b_not_a_query (s : Store K) (term_a term_b : string) : list K :=
  distinct_ordered
    (at_study_id <$>
       filter (λ a1, Sql.LOWER (at_term a1) = Sql.LOWER term_b
                     ∧ at_study_id a1 ∉ term_subquery s term_a)
              (annotations_terms s)).

End TermQueries.

(** ** The spatial queries *)

Definition ST_MakePoint (x y z : Py.Float) : Point := mkPoint x y z.

(** A tolerance, the ToleranceRadius of the design document: a non-negative
    number, here the rational [n / d].  The store refuses a negative
    tolerance. *)
Record ToleranceRadius := mkToleranceRadius { tol_num : N; tol_den : positive }.

Definition radius (t : ToleranceRadius) : Q := Z.of_N (tol_num t) # tol_den t.

(** A whole number of millimetres. *)
Definition millimetres (n : N) : ToleranceRadius := mkToleranceRadius n 1.

Coercion millimetres : N >-> ToleranceRadius.
Bind Scope N_scope with ToleranceRadius.

(** Squared Euclidean distance between two 3-D points; none when a
    coordinate is not finite. *)
Definition sqdist3 (g p : Point) : option Q :=
  match px g, py g, pz g, px p, py p, pz p with
  | Py.Finite gx, Py.Finite gy, Py.Finite gz,
    Py.Finite x, Py.Finite y, Py.Finite z =>
      Some ((gx - x) * (gx - x) + (gy - y) * (gy - y) + (gz - z) * (gz - z))%Q
  | _, _, _, _, _, _ => None
  end.

Section SpatialQueries.
Context {K : Type} `{StudyKey K}.

(** Squared distance of the store's geometry extension; none where it has
    no finite distance to give. *)
Variable sqdist : Point → Point → option Q.

(** [ST_DWithin(g, p, tol)]: the distance is at most [tol], the boundary
    included. *)
Definition ST_DWithin (g p : Point) (tol : ToleranceRadius) : bool :=
  match sqdist g p with
  | Some d => Qle_bool d (radius tol * radius tol)
  | None => false
  end.

(** [SELECT study_id FROM ns.coordinates WHERE ST_DWithin(geom, point, tol)] *)
Definition coord_subquery (s : Store K) (x y z : Py.Float)
    (tol : ToleranceRadius) : list K :=
  c_study_id <$>
    filter (λ r, ST_DWithin (c_geom r) (ST_MakePoint x y z) tol = true)
           (coordinates s).

(** The text bound to [a_not_b_query] of the coordinate endpoint. *)
Definition coords_a_not_b_query (s : Store K)
    (x1 y1 z1 x2 y2 z2 : Py.Float) (tolerance1 tolerance2 : ToleranceRadius)
    : list K :=
  distinct_ordered
    (c_study_id <$>
       filter (λ c1, ST_DWithin (c_geom c1) (ST_MakePoint x1 y1 z1) tolerance1 = true
                     ∧ c_study_id c1 ∉ coord_subquery s x2 y2 z2 tolerance2)
              (coordinates s)).

(** The text bound to [b_not_a_query] of the coordinate endpoint. *)
Definition coords_b_not_a_query (s : Store K)
    (x1 y1 z1 x2 y2 z2 : Py.Float) (tolerance1 tolerance2 : ToleranceRadius)
    : list K :=
  distinct_ordered
    (c_study_id <$>
       filter (λ c1, ST_DWithin (c_geom c1) (ST_MakePoint x2 y2 z2) tolerance1 = true
                     ∧ c_study_id c1 ∉ coord_subquery s x1 y1 z1 tolerance2)
              (coordinates s)).

End SpatialQueries.

(** ** Process, world and the handler monad *)

Record Engine := mkEngine { engine_url : string }.

(** What [conn.execute] is given: a statement text with its parameters. *)
Inductive Statement :=
| SetSearchPath
| TermsANotB (term_a term_b : string)
| TermsBNotA (term_a term_b : string)
| CoordsANotB (x1 y1 z1 x2 y2 z2 : Py.Float)
    (tolerance1 tolerance2 : ToleranceRadius)
| CoordsBNotA (x1 y1 z1 x2 y2 z2 : Py.Float)
    (tolerance1 tolerance2 : ToleranceRadius).

Record Process := mkProcess {
  _engine : option Engine;
  trace : list Statement
}.

Record World (K : Type) := mkWorld {
  DB_URL : option string;
  connect : Engine → Py.Outcome (Store K)
}.
Arguments mkWorld {K} _ _.
Arguments DB_URL {K} _.
Arguments connect {K} _ _.

Definition M (A : Type) : Type := Process → Py.Outcome A * Process.

#[export] Instance M_ret : MRet M := λ A a p, (Py.Return a, p).

#[export] Instance M_bind : MBind M := λ A B k m p,
  match m p with
  | (Py.Return a, p') => k a p'
  | (Py.Raise e, p') => (Py.Raise e, p')
  end.

Definition raise {A} (c : Py.ExnClass) (msg : string) : M A :=
  λ p, (Py.Raise (Py.mkExn c msg), p).

(** ** Response envelopes *)

Record TermQuery := mkTermQuery { q_term_a : string; q_term_b : string }.

Record Entry (K : Type) := mkEntry { count : nat; studies : list K }.
Arguments mkEntry {K} _ _.
Arguments count {K} _.
Arguments studies {K} _.

Record CoordQuery := mkCoordQuery {
  q_coords_a : list Py.Float;
  q_coords_b : list Py.Float;
  q_tolerance_mm : ToleranceRadius
}.

Record CoordEntry (K : Type) := mkCoordEntry {
  ce_coordinates : list Py.Float;
  ce_count : nat;
  ce_studies : list K
}.
Arguments mkCoordEntry {K} _ _ _.
Arguments ce_coordinates {K} _.
Arguments ce_count {K} _.
Arguments ce_studies {K} _.

(** The JSON bodies the two endpoints produce. *)
Inductive Body (K : Type) :=
| TermsBody (query : TermQuery) (results : gmap string (Entry K))
| CoordsBody (query : CoordQuery) (results : gmap string (CoordEntry K))
| ErrorBody (error : string).
Arguments TermsBody {K} _ _.
Arguments CoordsBody {K} _ _.
Arguments ErrorBody {K} _.

(** A body with its HTTP status. *)
Definition Response (K : Type) : Type := Body K * Z.

(** A dict display [{k1: v1, k2: v2}]: keys are set left to right, so that
    an equal second key replaces the first. *)
Definition dict2 {V} (k1 : string) (v1 : V) (k2 : string) (v2 : V) : gmap string V :=
  <[k2 := v2]> (<[k1 := v1]> ∅).

(** The f-string [f"{a}_not_{b}"]. *)
Definition label (a b : string) : string := a +:+ "_not_" +:+ b.

(** ** The application *)

Section App.
Context {K : Type} `{StudyKey K}.

(** Squared distance of the store's geometry extension. *)
Variable sqdist : Point → Point → option Q.

(** Python's [float(s)] on a string: [None] where it raises. *)
Variable py_float : string → option Py.Float.

Variable w : World K.

(** [get_engine()].  [create_engine] opens no connection; the URL is taken
    to be one it accepts. *)
Definition get_engine : M Engine := λ p,
  match _engine p with
  | Some e => (Py.Return e, p)
  | None =>
      match DB_URL w with
      | None | Some EmptyString =>
          raise Py.RuntimeError
            "Missing DB_URL (or DATABASE_URL) environment variable." p
      | Some db_url =>
          let db_url :=
            if Py.startswith "postgres://" db_url
            then "postgresql://" +:+ Py.drop (String.length "postgres://") db_url
            else db_url in
          let e := mkEngine db_url in
          (Py.Return e, mkProcess (Some e) (trace p))
      end
  end.

(** [eng.begin()]: a connection, read as the store it gives access to. *)
Definition begin (eng : Engine) : M (Store K) := λ p, (connect w eng, p).

(** What the store answers to a statement. *)
Definition rows (conn : Store K) (stmt : Statement) : list K :=
  match stmt with
  | SetSearchPath => []
  | TermsANotB term_a term_b => a_not_b_query conn term_a term_b
  | TermsBNotA term_a term_b => b_not_a_query conn term_a term_b
  | CoordsANotB x1 y1 z1 x2 y2 z2 t1 t2 =>
      coords_a_not_b_query sqdist conn x1 y1 z1 x2 y2 z2 t1 t2
  | CoordsBNotA x1 y1 z1 x2 y2 z2 t1 t2 =>
      coords_b_not_a_query sqdist conn x1 y1 z1 x2 y2 z2 t1 t2
  end.

(** [conn.execute(stmt, params).fetchall()], the one column of each row
    taken as [row[0]] does.  The store that was reached is taken to have
    its tables and to answer. *)
Definition execute (conn : Store K) (stmt : Statement) : M (list K) := λ p,
  (Py.Return (rows conn stmt), mkProcess (_engine p) (trace p ++ [stmt])).

(** [jsonify(body)] with the default status. *)
Definition jsonify (b : Body K) : Response K := (b, 200%Z).

(** The [try] block of [dissociate_by_terms]. *)
Definition dissociate_by_terms_try (term_a term_b : string) : M (Response K) :=
  eng ← get_engine;
  conn ← begin eng;
  _ ← execute conn SetSearchPath;
  a_not_b_results ← execute conn
    (TermsANotB (Py.replace "_" " " term_a) (Py.replace "_" " " term_b));
  b_not_a_results ← execute conn
    (TermsBNotA (Py.replace "_" " " term_a) (Py.replace "_" " " term_b));
  mret (jsonify (TermsBody
    (mkTermQuery (Py.replace "_" " " term_a) (Py.replace "_" " " term_b))
    (dict2
       (label term_a term_b)
       (mkEntry (length a_not_b_results) a_not_b_results)
       (label term_b term_a)
       (mkEntry (length b_not_a_results) b_not_a_results)))).

(** [dissociate_by_terms(term_a, term_b)], with its [except Exception]. *)
Definition dissociate_by_terms (term_a term_b : string)
    (p : Process) : Response K * Process :=
  match dissociate_by_terms_try term_a term_b p with
  | (Py.Return r, p') => (r, p')
  | (Py.Raise e, p') => ((ErrorBody (Py.exn_str e), 500%Z), p')
  end.

(** [float(s)] *)
Definition float (s : string) : Py.Outcome Py.Float :=
  match py_float s with
  | Some q => Py.Return q
  | None =>
      Py.Raise (Py.mkExn Py.ValueError
                  ("could not convert string to float: '" +:+ s +:+ "'"))
  end.

Definition not_enough_values (got : string) : Py.Exn :=
  Py.mkExn Py.ValueError
    ("not enough values to unpack (expected 3, got " +:+ got +:+ ")").

(** [x, y, z = map(float, parts)]: the components are converted one at a
    time, as the unpacking asks for them, and a fourth one is asked for
    to check that there is none. *)
Definition unpack3 (parts : list string)
    : Py.Outcome (Py.Float * Py.Float * Py.Float) :=
  match parts with
  | [] => Py.Raise (not_enough_values "0")
  | a :: parts =>
      match float a with
      | Py.Raise e => Py.Raise e
      | Py.Return x =>
          match parts with
          | [] => Py.Raise (not_enough_values "1")
          | b :: parts =>
              match float b with
              | Py.Raise e => Py.Raise e
              | Py.Return y =>
                  match parts with
                  | [] => Py.Raise (not_enough_values "2")
                  | c :: parts =>
                      match float c with
                      | Py.Raise e => Py.Raise e
                      | Py.Return z =>
                          match parts with
                          | [] => Py.Return (x, y, z)
                          | d :: _ =>
                              match float d with
                              | Py.Raise e => Py.Raise e
                              | Py.Return _ =>
                                  Py.Raise (Py.mkExn Py.ValueError
                                    "too many values to unpack (expected 3)")
                              end
                          end
                      end
                  end
              end
          end
      end
  end.

(** [map(float, coords.split("_"))] unpacked into three names. *)
Definition parse_coords (coords : string)
    : M (Py.Float * Py.Float * Py.Float) := λ p,
  (unpack3 (Py.split "_" coords), p).

(** The [try] block of [dissociate_by_coordinates]. *)
Definition dissociate_by_coordinates_try (coords_a coords_b : string)
    : M (Response K) :=
  '(x1, y1, z1) ← parse_coords coords_a;
  '(x2, y2, z2) ← parse_coords coords_b;
  let tolerance : ToleranceRadius := 8%N in
  eng ← get_engine;
  conn ← begin eng;
  _ ← execute conn SetSearchPath;
  a_not_b_results ← execute conn
    (CoordsANotB x1 y1 z1 x2 y2 z2 tolerance tolerance);
  b_not_a_results ← execute conn
    (CoordsBNotA x1 y1 z1 x2 y2 z2 tolerance tolerance);
  mret (jsonify (CoordsBody
    (mkCoordQuery [x1; y1; z1] [x2; y2; z2] tolerance)
    (dict2
       "coords_a_not_b"
       (mkCoordEntry [x1; y1; z1] (length a_not_b_results) a_not_b_results)
       "coords_b_not_a"
       (mkCoordEntry [x2; y2; z2] (length b_not_a_results) b_not_a_results)))).

(** [dissociate_by_coordinates(coords_a, coords_b)], with its
    [except ValueError] and [except Exception]. *)
Definition dissociate_by_coordinates (coords_a coords_b : string)
    (p : Process) : Response K * Process :=
  match dissociate_by_coordinates_try coords_a coords_b p with
  | (Py.Return r, p') => (r, p')
  | (Py.Raise e, p') =>
      match Py.exn_class e with
      | Py.ValueError =>
          ((ErrorBody
              "Invalid coordinate format. Use x_y_z format (e.g., '0_-52_26')",
            400%Z), p')
      | _ => ((ErrorBody (Py.exn_str e), 500%Z), p')
      end
  end.

End App.

(** ** Vocabulary of the design document *)

(** Normalization of a term: underscores to spaces, then case folding. *)
Definition normalize (t : string) : string := Sql.LOWER (Py.replace "_" " " t).

(** ASCII white space, as [str.isspace] sees it. *)
Definition is_space (c : ascii) : bool :=
  let n := N_of_ascii c in
  ((n =? 32) || ((9 <=? n) && (n <=? 13)) || ((28 <=? n) && (n <=? 31)))%N.

(** A term that is empty or made of white space only. *)
Fixpoint blank (t : string) : bool :=
  match t with
  | EmptyString => true
  | String c r => is_space c && blank r
  end.

(** A coordinate string that parses as exactly three numbers. *)
Definition three_numbers (py_float : string → option Py.Float)
    (coords : string) : Prop :=
  ∃ a b c, Py.split "_" coords = [a; b; c]
           ∧ is_Some (py_float a) ∧ is_Some (py_float b) ∧ is_Some (py_float c).

(** A string with an underscore in it. *)
Fixpoint has_underscore (t : string) : bool :=
  match t with
  | EmptyString => false
  | String c r => Ascii.eqb c "_" || has_underscore r
  end.

(** A string with an upper-case ASCII letter in it. *)
Fixpoint has_upper (t : string) : bool :=
  match t with
  | EmptyString => false
  | String c r =>
      (let n := N_of_ascii c in (65 <=? n) && (n <=? 90))%N || has_upper r
  end.

Section Vocabulary.
Context {K : Type} `{StudyKey K}.

(** Term Store [lookup]: the membership set of a term, in store order. *)
Definition lookup_term (s : Store K) (t : string) : list K :=
  distinct_ordered (term_subquery s t).

(** Spatial Store [within]: the membership set of a sphere, in store order. *)
Definition within (sqdist : Point → Point → option Q) (s : Store K)
    (x y z : Py.Float) (tol : ToleranceRadius) : list K :=
  distinct_ordered (coord_subquery sqdist s x y z tol).

(** In process state [p] the application reaches the store [s]. *)
Definition serves (w : World K) (p : Process) (s : Store K) : Prop :=
  ∃ eng p', get_engine w p = (Py.Return eng, p')
            ∧ connect w eng = Py.Return s.

(** The Result Formatter for terms: the envelope [dissociate_by_terms]
    builds from the two criteria and the two difference sets. *)
Definition term_envelope (term_a term_b : string)
    (a_not_b b_not_a : list K) : Response K :=
  (TermsBody
     (mkTermQuery (Py.replace "_" " " term_a) (Py.replace "_" " " term_b))
     (dict2
        (label term_a term_b) (mkEntry (length a_not_b) a_not_b)
        (label term_b term_a) (mkEntry (length b_not_a) b_not_a)),
   200%Z).

(** The statements one term request sends, in order. *)
Definition term_statements (term_a term_b : string) : list Statement :=
  [ SetSearchPath;
    TermsANotB (Py.replace "_" " " term_a) (Py.replace "_" " " term_b);
    TermsBNotA (Py.replace "_" " " term_a) (Py.replace "_" " " term_b) ].

(** The Result Formatter for coordinates. *)
Definition coord_envelope (a b : Py.Float * Py.Float * Py.Float)
    (a_not_b b_not_a : list K) : Response K :=
  let '(x1, y1, z1) := a in
  let '(x2, y2, z2) := b in
  (CoordsBody
     (mkCoordQuery [x1; y1; z1] [x2; y2; z2] 8)
     (dict2
        "coords_a_not_b"
        (mkCoordEntry [x1; y1; z1] (length a_not_b) a_not_b)
        "coords_b_not_a"
        (mkCoordEntry [x2; y2; z2] (length b_not_a) b_not_a)),
   200%Z).

(** The statements one coordinate request sends, in order. *)
Definition coord_statements (a b : Py.Float * Py.Float * Py.Float)
    : list Statement :=
  let '(x1, y1, z1) := a in
  let '(x2, y2, z2) := b in
  [ SetSearchPath;
    CoordsANotB x1 y1 z1 x2 y2 z2 8 8;
    CoordsBNotA x1 y1 z1 x2 y2 z2 8 8 ].

End Vocabulary.

(** ** Worlds used in the examples *)

(** A reachable store. *)
Definition world_up {K} (s : Store K) : World K :=
  mkWorld (Some "postgres://ns@db/neurosynth") (λ _, Py.Return s).

(** A freshly started process. *)
Definition fresh : Process := mkProcess None [].

(** ["memory" -> {1,2,3}], ["reward" -> {2,3,4}]. *)
Definition memory_reward : Store Z :=
  mkStore
    [ mkAnnotationTerm 3%Z "memory"; mkAnnotationTerm 1%Z "memory";
      mkAnnotationTerm 2%Z "reward"; mkAnnotationTerm 2%Z "memory";
      mkAnnotationTerm 4%Z "reward"; mkAnnotationTerm 3%Z "reward";
      mkAnnotationTerm 1%Z "memory" ]
    [].

(** One study with one activation at [(5, 0, 0)]. *)
Definition one_point : Store Z :=
  mkStore [] [ mkCoordinate 1%Z (mkPoint 5 0 0) ].

Definition digit_value (c : ascii) : option Z :=
  let n := N_of_ascii c in
  if ((48 <=? n) && (n <=? 57))%N then Some (Z.of_N (n - 48)) else None.

Fixpoint digits_value (acc : Z) (t : string) : option Z :=
  match t with
  | EmptyString => Some acc
  | String c r =>
      match digit_value c with
      | Some d => digits_value (10 * acc + d) r
      | None => None
      end
  end.

(** A conversion for the examples: optionally signed decimal integers. *)
Definition float_of_integer (t : string) : option Py.Float :=
  match t with
  | EmptyString => None
  | String "-" (String c r) =>
      (λ n, Py.Finite (inject_Z (- n))) <$> digits_value 0 (String c r)
  | String "+" (String c r) =>
      (λ n, Py.Finite (inject_Z n)) <$> digits_value 0 (String c r)
  | _ => (λ n, Py.Finite (inject_Z n)) <$> digits_value 0 t
  end.




(** The annotations of [memory_reward] and four activations of three
    studies near the origin, out of order. *)
Definition scattered : Store Z :=
  mkStore
    (annotations_terms memory_reward)
    [ mkCoordinate 3%Z (mkPoint 5 0 0); mkCoordinate 1%Z (mkPoint 1 0 0);
      mkCoordinate 3%Z (mkPoint 2 0 0); mkCoordinate 2%Z (mkPoint 0 3 0) ].

(** ** The location endpoint *)

Section Locations.

(** Python's [int(s)] on a string: [None] where it raises. *)
Variable py_int : string → option Z.

(** [int(s)] *)
Definition int (s : string) : Py.Outcome Z :=
  match py_int s with
  | Some n => Py.Return n
  | None =>
      Py.Raise (Py.mkExn Py.ValueError
                  ("invalid literal for int() with base 10: '" +:+ s +:+ "'"))
  end.

(** [x, y, z = map(conv, parts)] for any conversion: one component at a
    time, and a fourth one asked for to check that there is none. *)
Definition unpack3_with {A} (conv : string → Py.Outcome A)
    (parts : list string) : Py.Outcome (A * A * A) :=
  match parts with
  | [] => Py.Raise (not_enough_values "0")
  | a :: parts =>
      match conv a with
      | Py.Raise e => Py.Raise e
      | Py.Return x =>
          match parts with
          | [] => Py.Raise (not_enough_values "1")
          | b :: parts =>
              match conv b with
              | Py.Raise e => Py.Raise e
              | Py.Return y =>
                  match parts with
                  | [] => Py.Raise (not_enough_values "2")
                  | c :: parts =>
                      match conv c with
                      | Py.Raise e => Py.Raise e
                      | Py.Return z =>
                          match parts with
                          | [] => Py.Return (x, y, z)
                          | d :: _ =>
                              match conv d with
                              | Py.Raise e => Py.Raise e
                              | Py.Return _ =>
                                  Py.Raise (Py.mkExn Py.ValueError
                                    "too many values to unpack (expected 3)")
                              end
                          end
                      end
                  end
              end
          end
      end
  end.

(** [get_studies_by_coordinates(coords)]: [jsonify([x, y, z])] with the
    default status.  There is no [try]: an exception leaves the view. *)
Definition get_studies_by_coordinates (coords : string)
    : Py.Outcome (list Z * Z) :=
  match unpack3_with int (Py.split "_" coords) with
  | Py.Return (x, y, z) => Py.Return ([x; y; z], 200%Z)
  | Py.Raise e => Py.Raise e
  end.

End Locations.

(** ** Further vocabulary *)

(** The number of occurrences of a character. *)
Fixpoint count_char (c : ascii) (t : string) : nat :=
  match t with
  | EmptyString => 0
  | String d r => (if Ascii.eqb d c then 1 else 0) + count_char c r
  end.

(** [sep.join(parts)] for a one-character separator. *)
Fixpoint join (sep : ascii) (parts : list string) : string :=
  match parts with
  | [] => EmptyString
  | [t] => t
  | t :: rest => t +:+ String sep (join sep rest)
  end.


(** Three finite coordinates. *)
Definition finite3 (x y z : Q) : Py.Float * Py.Float * Py.Float :=
  (Py.Finite x, Py.Finite y, Py.Finite z).

(** The a-not-b set of the design document under one tolerance:
    [set_a − set_b] of the two membership sets. *)
Definition a_not_b_under {K} `{StudyKey K} (sqdist : Point → Point → option Q)
    (s : Store K) (a b : Py.Float * Py.Float * Py.Float)
    (tol : ToleranceRadius) : list K :=
  let '(x1, y1, z1) := a in
  let '(x2, y2, z2) := b in
  list_difference (within sqdist s x1 y1 z1 tol) (within sqdist s x2 y2 z2 tol).

(** A coordinate string that parses as exactly three integers. *)
Definition three_integers (py_int : string → option Z) (coords : string) : Prop :=
  ∃ a b c, Py.split "_" coords = [a; b; c]
           ∧ is_Some (py_int a) ∧ is_Some (py_int b) ∧ is_Some (py_int c).

(** A store that cannot be reached. *)
Definition world_down {K} (e : Py.Exn) : World K :=
  mkWorld (Some "postgres://ns@db/neurosynth") (λ _, Py.Raise e).

(** A process without configuration. *)
Definition world_unset {K} (s : Store K) : World K :=
  mkWorld None (λ _, Py.Return s).

(** A conversion for the examples: optionally signed decimal integers. *)
Definition int_of_integer (t : string) : option Z :=
  match t with
  | EmptyString => None
  | String "-" (String c r) => Z.opp <$> digits_value 0 (String c r)
  | String "+" (String c r) => digits_value 0 (String c r)
  | _ => digits_value 0 t
  end.

(** * Properties *)

(** ** Strings *)

Lemma replace_length old new t :
  String.length (Py.replace old new t) = String.length t.
Proof. induction t as [|c r IH]; simpl; [done | by rewrite IH]. Qed.

Lemma replace_no_underscore t : has_underscore (Py.replace "_" " " t) = false.
Proof.
  induction t as [|c r IH]; simpl; [done |].
  destruct (Ascii.eqb c "_") eqn:E; simpl; [done |].
  by rewrite E, IH.
Qed.

Lemma replace_fixed t : has_underscore t = false → Py.replace "_" " " t = t.
Proof.
  induction t as [|c r IH]; simpl; [done |].
  destruct (Ascii.eqb c "_"); simpl; [done |].
  intros Hr. by rewrite IH.
Qed.

Lemma replace_changes t : has_underscore t = true → Py.replace "_" " " t ≠ t.
Proof.
  intros Hu Heq. rewrite <- Heq, replace_no_underscore in Hu. discriminate.
Qed.

Lemma string_app_inj_length (a a' b b' : string) :
  String.length a = String.length a' → a +:+ b = a' +:+ b' → a = a' ∧ b = b'.
Proof.
  revert a'. induction a as [|c r IH]; intros [|c' r']; simpl; try done.
  intros [= Hlen] [= -> Happ]. destruct (IH _ Hlen Happ) as [-> ->]. done.
Qed.

Lemma label_inj_length a b a' b' :
  String.length a = String.length a' → label a b = label a' b' → a = a' ∧ b = b'.
Proof.
  unfold label. intros Hlen Heq.
  destruct (string_app_inj_length _ _ _ _ Hlen Heq) as [-> Hrest].
  split; [done |]. by injection Hrest.
Qed.

(** ** Queries *)

Section QueryFacts.
Context {K : Type} `{StudyKey K}.

Lemma distinct_ordered_elem_of (l : list K) x : x ∈ distinct_ordered l ↔ x ∈ l.
Proof.
  unfold distinct_ordered.
  by rewrite merge_sort_Permutation, elem_of_remove_dups.
Qed.

Lemma distinct_ordered_NoDup (l : list K) : NoDup (distinct_ordered l).
Proof.
  unfold distinct_ordered. rewrite merge_sort_Permutation.
  apply NoDup_remove_dups.
Qed.

Lemma distinct_ordered_sorted (l : list K) :
  StronglySorted key_le (distinct_ordered l).
Proof. apply StronglySorted_merge_sort; apply _. Qed.

Lemma elem_of_term_subquery (s : Store K) t x :
  x ∈ term_subquery s t ↔
  ∃ r, r ∈ annotations_terms s ∧ at_study_id r = x
       ∧ Sql.LOWER (at_term r) = Sql.LOWER t.
Proof.
  unfold term_subquery. rewrite list_elem_of_fmap. split.
  - intros (r & -> & [Hr Hin]%list_elem_of_filter). eauto.
  - intros (r & Hin & <- & Hr). exists r. split; [done |].
    by apply list_elem_of_filter.
Qed.

Lemma elem_of_a_not_b_query (s : Store K) a b x :
  x ∈ a_not_b_query s a b ↔ x ∈ term_subquery s a ∧ x ∉ term_subquery s b.
Proof.
  unfold a_not_b_query. rewrite distinct_ordered_elem_of, list_elem_of_fmap.
  rewrite elem_of_term_subquery. split.
  - intros (r & -> & [[Hr Hn] Hin]%list_elem_of_filter). eauto.
  - intros [(r & Hin & <- & Hr) Hn]. exists r. split; [done |].
    by apply list_elem_of_filter.
Qed.

Lemma elem_of_b_not_a_query (s : Store K) a b x :
  x ∈ b_not_a_query s a b ↔ x ∈ term_subquery s b ∧ x ∉ term_subquery s a.
Proof. apply (elem_of_a_not_b_query s b a). Qed.


(** A duplicate-free ordered list is determined by its elements. *)
Lemma ordered_unique (l k : list K) :
  StronglySorted key_le l → NoDup l →
  StronglySorted key_le k → NoDup k →
  (∀ x, x ∈ l ↔ x ∈ k) → l = k.
Proof.
  intros Sl Nl Sk Nk Hlk.
  apply (StronglySorted_unique key_le); [done | done |].
  by apply NoDup_Permutation.
Qed.

End QueryFacts.

(** ** The handlers *)

Section AppFacts.
Context {K : Type} `{StudyKey K}.
Variable sqdist : Point → Point → option Q.
Variable py_float : string → option Py.Float.
Variable w : World K.

Lemma get_engine_returns p eng p' :
  get_engine w p = (Py.Return eng, p') →
  p' = mkProcess (Some eng) (trace p).
Proof.
  unfold get_engine, raise. destruct p as [[e|] tr]; simpl.
  - by intros [= -> <-].
  - destruct (DB_URL w) as [[|c u]|]; try done. by intros [= <- <-].
Qed.

Lemma get_engine_raises p e p' :
  get_engine w p = (Py.Raise e, p') →
  p' = p ∧ Py.exn_class e = Py.RuntimeError.
Proof.
  unfold get_engine, raise. destruct (_engine p); [done |].
  destruct (DB_URL w) as [[|c u]|]; try done; by intros [= <- <-].
Qed.

(** Once an engine exists, the same store stays reachable. *)
Lemma serves_after p eng p' s :
  get_engine w p = (Py.Return eng, p') → connect w eng = Py.Return s →
  ∀ tr, serves w (mkProcess (_engine p') tr) s.
Proof.
  intros Hg Hc tr. rewrite (get_engine_returns _ _ _ Hg). simpl.
  exists eng, (mkProcess (Some eng) tr). done.
Qed.

(** A term request against a reachable store. *)
Lemma dissociate_by_terms_served term_a term_b p eng p' s :
  get_engine w p = (Py.Return eng, p') → connect w eng = Py.Return s →
  dissociate_by_terms sqdist w term_a term_b p =
    (term_envelope term_a term_b
       (a_not_b_query s (Py.replace "_" " " term_a) (Py.replace "_" " " term_b))
       (b_not_a_query s (Py.replace "_" " " term_a) (Py.replace "_" " " term_b)),
     mkProcess (Some eng) (trace p ++ term_statements term_a term_b)).
Proof.
  intros Hg Hc.
  unfold dissociate_by_terms, dissociate_by_terms_try, mbind, M_bind.
  rewrite Hg. unfold begin. rewrite Hc. simpl.
  rewrite (get_engine_returns _ _ _ Hg). simpl.
  unfold term_envelope, term_statements, jsonify.
  by rewrite <- !(assoc_L (++)).
Qed.

Lemma dissociate_by_terms_response term_a term_b p s :
  serves w p s →
  fst (dissociate_by_terms sqdist w term_a term_b p) =
    term_envelope term_a term_b
       (a_not_b_query s (Py.replace "_" " " term_a) (Py.replace "_" " " term_b))
       (b_not_a_query s (Py.replace "_" " " term_a) (Py.replace "_" " " term_b)).
Proof.
  intros (eng & p' & Hg & Hc).
  by rewrite (dissociate_by_terms_served _ _ _ _ _ _ Hg Hc).
Qed.

(** The term endpoint answers 200 with an envelope or 500 with an error. *)
Lemma dissociate_by_terms_cases term_a term_b p :
  (∃ s, serves w p s) ∨
  (∃ msg, fst (dissociate_by_terms sqdist w term_a term_b p)
          = (ErrorBody msg, 500%Z)
          ∧ trace (snd (dissociate_by_terms sqdist w term_a term_b p)) = trace p).
Proof.
  destruct (get_engine w p) as [[eng|e] p'] eqn:Hg.
  - destruct (connect w eng) as [s|e] eqn:Hc.
    + left. exists s, eng, p'. done.
    + right. exists (Py.exn_str e).
      unfold dissociate_by_terms, dissociate_by_terms_try, mbind, M_bind.
      rewrite Hg. unfold begin. rewrite Hc. simpl.
      by rewrite (get_engine_returns _ _ _ Hg).
  - right. exists (Py.exn_str e).
    unfold dissociate_by_terms, dissociate_by_terms_try, mbind, M_bind.
    rewrite Hg. simpl. by destruct (get_engine_raises _ _ _ Hg) as [-> _].
Qed.

End AppFacts.

Lemma dict2_lookup {V} k1 (v1 : V) k2 v2 k v :
  dict2 k1 v1 k2 v2 !! k = Some v → v = v1 ∨ v = v2.
Proof.
  unfold dict2. rewrite !lookup_insert. repeat case_decide.
  - intros [= <-]. by right.
  - intros [= <-]. by left.
  - by rewrite lookup_empty.
Qed.

(** ** The term endpoint *)

(** C1. In every store in which "memory" is the term of the studies 1, 2, 3
    and "reward" the term of the studies 2, 3, 4, the request
    ("memory", "reward") is answered with status 200 and a results object
    of exactly two keys: "memory_not_reward" holds the study list [1] with
    count 1 and "reward_not_memory" holds the study list [4] with count 1. *)
Theorem memory_reward_scenario
    (sqdist : Point → Point → option Q) (w : World Z) (p : Process)
    (s : Store Z) :
  serves w p s →
  (∀ x, x ∈ term_subquery s "memory" ↔ x ∈ [1; 2; 3]%Z) →
  (∀ x, x ∈ term_subquery s "reward" ↔ x ∈ [2; 3; 4]%Z) →
  ∃ res,
    fst (dissociate_by_terms sqdist w "memory" "reward" p) =
      (TermsBody (mkTermQuery "memory" "reward") res, 200%Z)
    ∧ res !! "memory_not_reward" = Some (mkEntry 1 [1%Z])
    ∧ res !! "reward_not_memory" = Some (mkEntry 1 [4%Z])
    ∧ ∀ k, is_Some (res !! k) →
           k = "memory_not_reward" ∨ k = "reward_not_memory".
Proof.
  intros Hs Hm Hr. rewrite (dissociate_by_terms_response _ _ _ _ _ _ Hs).
  unfold term_envelope. simpl Py.replace.
  assert (a_not_b_query s "memory" "reward" = [1%Z]) as ->.
  { apply ordered_unique.
    - apply distinct_ordered_sorted.
    - apply distinct_ordered_NoDup.
    - repeat constructor.
    - apply NoDup_singleton.
    - intros x. rewrite elem_of_a_not_b_query, Hm, Hr.
      rewrite !elem_of_cons, !elem_of_nil. lia. }
  assert (b_not_a_query s "memory" "reward" = [4%Z]) as ->.
  { apply ordered_unique.
    - apply distinct_ordered_sorted.
    - apply distinct_ordered_NoDup.
    - repeat constructor.
    - apply NoDup_singleton.
    - intros x. rewrite elem_of_b_not_a_query, Hm, Hr.
      rewrite !elem_of_cons, !elem_of_nil. lia. }
  eexists. split; [reflexivity |]. unfold dict2. split_and!.
  - by rewrite lookup_insert_ne, lookup_insert_eq.
  - by rewrite lookup_insert_eq.
  - intros k. rewrite !lookup_insert_is_Some', lookup_empty.
    intros [<- | [<- | [? ?]]]; [by right | by left | done].
Qed.

Lemma memory_reward_scenario_witness :
  let w := world_up memory_reward in
  (serves w fresh memory_reward
   ∧ (∀ x, x ∈ term_subquery memory_reward "memory" ↔ x ∈ [1; 2; 3]%Z)
   ∧ (∀ x, x ∈ term_subquery memory_reward "reward" ↔ x ∈ [2; 3; 4]%Z))
  ∧ ∃ res,
      fst (dissociate_by_terms sqdist3 w "memory" "reward" fresh) =
        (TermsBody (mkTermQuery "memory" "reward") res, 200%Z)
      ∧ res !! "memory_not_reward" = Some (mkEntry 1 [1%Z])
      ∧ res !! "reward_not_memory" = Some (mkEntry 1 [4%Z])
      ∧ ∀ k, is_Some (res !! k) →
             k = "memory_not_reward" ∨ k = "reward_not_memory".
Proof.
  intros w.
  assert (serves w fresh memory_reward) as Hs
    by (eexists _, _; split; reflexivity).
  assert (∀ x, x ∈ term_subquery memory_reward "memory" ↔ x ∈ [1; 2; 3]%Z)
    as Hm.
  { intros x.
    assert (term_subquery memory_reward "memory" = [3; 1; 2; 1]%Z) as ->
      by (vm_compute; reflexivity).
    rewrite !elem_of_cons, !elem_of_nil. lia. }
  assert (∀ x, x ∈ term_subquery memory_reward "reward" ↔ x ∈ [2; 3; 4]%Z)
    as Hr.
  { intros x.
    assert (term_subquery memory_reward "reward" = [2; 4; 3]%Z) as ->
      by (vm_compute; reflexivity).
    rewrite !elem_of_cons, !elem_of_nil. lia. }
  split; [by split_and! |].
  exact (memory_reward_scenario sqdist3 w fresh memory_reward Hs Hm Hr).
Defined.

Lemma lower_ascii_idemp c : Sql.lower_ascii (Sql.lower_ascii c) = Sql.lower_ascii c.
Proof. destruct c as [[] [] [] [] [] [] [] []]; reflexivity. Qed.

Lemma LOWER_idemp t : Sql.LOWER (Sql.LOWER t) = Sql.LOWER t.
Proof.
  induction t as [|c r IH]; simpl; [done |].
  by rewrite lower_ascii_idemp, IH.
Qed.

Section TermFacts.
Context {K : Type} `{StudyKey K}.

(** The store compares terms up to case. *)
Lemma term_subquery_LOWER (s : Store K) t :
  term_subquery s (Sql.LOWER t) = term_subquery s t.
Proof. unfold term_subquery. by rewrite LOWER_idemp. Qed.

Lemma term_subquery_same_fold (s : Store K) t u :
  Sql.LOWER t = Sql.LOWER u → term_subquery s t = term_subquery s u.
Proof. unfold term_subquery. by intros ->. Qed.

Lemma a_not_b_query_LOWER (s : Store K) a b :
  a_not_b_query s (Sql.LOWER a) (Sql.LOWER b) = a_not_b_query s a b.
Proof.
  unfold a_not_b_query. by rewrite term_subquery_LOWER, LOWER_idemp.
Qed.

Lemma b_not_a_query_LOWER (s : Store K) a b :
  b_not_a_query s (Sql.LOWER a) (Sql.LOWER b) = b_not_a_query s a b.
Proof. apply (a_not_b_query_LOWER s b a). Qed.

Lemma a_not_b_query_same_fold (s : Store K) a b :
  Sql.LOWER a = Sql.LOWER b → a_not_b_query s a b = [].
Proof.
  intros Hab. apply elem_of_nil_inv. intros x.
  rewrite elem_of_a_not_b_query, (term_subquery_same_fold s a b Hab). tauto.
Qed.

Lemma b_not_a_query_same_fold (s : Store K) a b :
  Sql.LOWER a = Sql.LOWER b → b_not_a_query s a b = [].
Proof. intros Hab. by apply (a_not_b_query_same_fold s b a). Qed.




Lemma dict2_is_Some {V} k1 (v1 : V) k2 v2 k :
  is_Some (dict2 k1 v1 k2 v2 !! k) ↔ k = k1 ∨ k = k2.
Proof.
  unfold dict2. rewrite !lookup_insert_is_Some', lookup_empty. split.
  - intros [<-|[<-|[? ?]]]; [by right | by left | done].
  - intros [->| ->]; [right; by left | by left].
Qed.

End TermFacts.

Section TermClaims.
Context {K : Type} `{StudyKey K}.
Variable sqdist : Point → Point → option Q.
Variable w : World K.


(** C3. Two terms that are equal after normalization (underscores to
    spaces, case folded) are answered with status 200 and a results object
    whose two labels both hold the empty study list with count 0, and
    which holds no other entry; so is a term dissociated with itself. *)
Theorem equal_terms_both_empty (s : Store K) (p : Process) (A B : string) :
  serves w p s →
  (normalize A = normalize B →
   ∃ q res,
     fst (dissociate_by_terms sqdist w A B p) = (TermsBody q res, 200%Z)
     ∧ res !! label A B = Some (mkEntry 0 [])
     ∧ res !! label B A = Some (mkEntry 0 [])
     ∧ ∀ k e, res !! k = Some e → e = mkEntry 0 [])
  ∧ (∃ q res,
       fst (dissociate_by_terms sqdist w A A p) = (TermsBody q res, 200%Z)
       ∧ res !! label A A = Some (mkEntry 0 [])
       ∧ ∀ k e, res !! k = Some e → e = mkEntry 0 []).
Proof.
  intros Hp.
  assert (∀ k1 k2 : string,
            let res := dict2 k1 (mkEntry 0 ([] : list K)) k2 (mkEntry 0 []) in
            res !! k1 = Some (mkEntry 0 []) ∧ res !! k2 = Some (mkEntry 0 [])
            ∧ ∀ k e, res !! k = Some e → e = mkEntry 0 []) as Hdict.
  { intros k1 k2 res. subst res. split_and!.
    - unfold dict2. rewrite lookup_insert. case_decide; [done |].
      by rewrite lookup_insert_eq.
    - unfold dict2. by rewrite lookup_insert_eq.
    - intros k e Hk. by destruct (dict2_lookup _ _ _ _ _ _ Hk). }
  split; [intros HAB |];
    rewrite (dissociate_by_terms_response _ _ _ _ _ _ Hp);
    unfold term_envelope.
  - rewrite (a_not_b_query_same_fold s _ _ HAB),
      (b_not_a_query_same_fold s _ _ HAB).
    eexists _, _. split; [reflexivity |]. apply Hdict.
  - rewrite (a_not_b_query_same_fold s _ _ eq_refl),
      (b_not_a_query_same_fold s _ _ eq_refl).
    eexists _, _. split; [reflexivity |].
    destruct (Hdict (label A A) (label A A)) as (H1 & _ & H3). by split.
Qed.


(** C6, as the code has it.  The echoed query holds the two criteria with
    underscores replaced by spaces and their casing kept: exactly the text
    bound to the two statements sent to the store.  Case folding happens
    in the store only, which answers the bound text as it would answer the
    normalized one. *)
Theorem echo_is_the_bound_text (p : Process) (a b : string)
    (q : TermQuery) (res : gmap string (Entry K)) (st : Z) :
  fst (dissociate_by_terms sqdist w a b p) = (TermsBody q res, st) →
  q = mkTermQuery (Py.replace "_" " " a) (Py.replace "_" " " b)
  ∧ trace (snd (dissociate_by_terms sqdist w a b p)) =
      (trace p ++ [ SetSearchPath;
                    TermsANotB (q_term_a q) (q_term_b q);
                    TermsBNotA (q_term_a q) (q_term_b q) ])%list
  ∧ ∀ s : Store K,
      a_not_b_query s (q_term_a q) (q_term_b q)
        = a_not_b_query s (normalize a) (normalize b)
      ∧ b_not_a_query s (q_term_a q) (q_term_b q)
        = b_not_a_query s (normalize a) (normalize b).
Proof.
  intros Hr.
  destruct (dissociate_by_terms_cases sqdist w a b p)
    as [(s & eng & p' & Hg & Hc) | (msg & Hm & _)].
  - rewrite (dissociate_by_terms_served _ _ _ _ _ _ _ _ Hg Hc) in Hr |- *.
    simpl in Hr. injection Hr as <- <- <-. simpl. split_and!; [done | done |].
    intros s'. unfold normalize.
    by rewrite a_not_b_query_LOWER, b_not_a_query_LOWER.
  - rewrite Hm in Hr. discriminate.
Qed.

(** C9, as the code has it.  The term endpoint validates nothing: it never
    answers 400, and a request one of whose terms is empty or blank after
    the substitution is sent to a reachable store like any other and
    answered with status 200. *)
Theorem blank_terms_are_looked_up (s : Store K) (p : Process) (a b : string) :
  blank (Py.replace "_" " " a) = true ∨ blank (Py.replace "_" " " b) = true →
  snd (fst (dissociate_by_terms sqdist w a b p)) ≠ 400%Z
  ∧ (serves w p s →
     fst (dissociate_by_terms sqdist w a b p) =
       term_envelope a b
         (a_not_b_query s (Py.replace "_" " " a) (Py.replace "_" " " b))
         (b_not_a_query s (Py.replace "_" " " a) (Py.replace "_" " " b))
     ∧ trace (snd (dissociate_by_terms sqdist w a b p)) =
         (trace p ++ term_statements a b)%list).
Proof.
  intros _. split.
  - destruct (dissociate_by_terms_cases sqdist w a b p)
      as [(s' & Hs') | (msg & -> & _)]; [| done].
    by rewrite (dissociate_by_terms_response _ _ _ _ _ _ Hs').
  - intros (eng & p' & Hg & Hc).
    by rewrite (dissociate_by_terms_served _ _ _ _ _ _ _ _ Hg Hc).
Qed.

(** C10, as the code has it.  In a successful term response the result
    keys are the two labels built from the raw request strings, and the
    echoed query holds the substituted terms.  When a request term has an
    underscore, the labels differ from those the echoed criteria would
    give; when none has, they are the same, whatever the casing. *)
Theorem labels_are_raw (p : Process) (a b : string)
    (q : TermQuery) (res : gmap string (Entry K)) (st : Z) :
  fst (dissociate_by_terms sqdist w a b p) = (TermsBody q res, st) →
  (∀ k, is_Some (res !! k) ↔ k = label a b ∨ k = label b a)
  ∧ q = mkTermQuery (Py.replace "_" " " a) (Py.replace "_" " " b)
  ∧ (has_underscore a = true ∨ has_underscore b = true →
     label a b ≠ label (q_term_a q) (q_term_b q)
     ∧ label b a ≠ label (q_term_b q) (q_term_a q))
  ∧ (has_underscore a = false → has_underscore b = false →
     label a b = label (q_term_a q) (q_term_b q)
     ∧ label b a = label (q_term_b q) (q_term_a q)).
Proof.
  intros Hr.
  destruct (dissociate_by_terms_cases sqdist w a b p)
    as [(s & Hs) | (msg & Hm & _)]; [| rewrite Hm in Hr; discriminate].
  rewrite (dissociate_by_terms_response _ _ _ _ _ _ Hs) in Hr.
  unfold term_envelope in Hr. injection Hr as <- <- <-. simpl.
  split_and!.
  - intros k. apply dict2_is_Some.
  - done.
  - intros Hu. split; intros Heq.
    + apply label_inj_length in Heq as [Ha Hb];
        [| by rewrite replace_length].
      destruct Hu as [Hu|Hu]; eapply replace_changes; eauto.
    + apply label_inj_length in Heq as [Hb Ha];
        [| by rewrite replace_length].
      destruct Hu as [Hu|Hu]; eapply replace_changes; eauto.
  - intros Ha Hb. by rewrite (replace_fixed a Ha), (replace_fixed b Hb).
Qed.

End TermClaims.



Lemma equal_terms_both_empty_witness :
  let s := memory_reward in
  let w := world_up s in
  (serves w fresh s
   ∧ normalize "Memory" = normalize "memory"
   ∧ lookup_term s "memory" = [1; 2; 3]%Z)
  ∧ (∃ q res,
       fst (dissociate_by_terms sqdist3 w "Memory" "memory" fresh)
         = (TermsBody q res, 200%Z)
       ∧ res !! "Memory_not_memory" = Some (mkEntry 0 [])
       ∧ res !! "memory_not_Memory" = Some (mkEntry 0 [])
       ∧ ∀ k e, res !! k = Some e → e = mkEntry 0 [])
  ∧ (∃ q res,
       fst (dissociate_by_terms sqdist3 w "memory" "memory" fresh)
         = (TermsBody q res, 200%Z)
       ∧ res !! "memory_not_memory" = Some (mkEntry 0 [])
       ∧ ∀ k e, res !! k = Some e → e = mkEntry 0 []).
Proof.
  intros s w.
  assert (serves w fresh s) as Hs by (eexists _, _; split; reflexivity).
  assert (normalize "Memory" = normalize "memory") as Hn by reflexivity.
  split; [split_and!; [exact Hs | exact Hn | vm_compute; reflexivity] |].
  destruct (equal_terms_both_empty sqdist3 w s fresh "Memory" "memory" Hs)
    as [Hab _].
  destruct (equal_terms_both_empty sqdist3 w s fresh "memory" "memory" Hs)
    as [_ Haa].
  split; [exact (Hab Hn) | exact Haa].
Defined.



(** The echoed term of the request ("Memory", "reward") is "Memory", which
    is not its normalized form "memory". *)
Lemma echo_not_case_folded :
  ∃ q res,
    fst (dissociate_by_terms sqdist3 (world_up memory_reward)
           "Memory" "reward" fresh) = (TermsBody q res, 200%Z)
    ∧ q_term_a q = "Memory"
    ∧ q_term_a q ≠ normalize "Memory".
Proof.
  eexists _, _. split; [reflexivity |]. split; [reflexivity |]. discriminate.
Qed.

Lemma echo_is_the_bound_text_witness :
  let w := world_up memory_reward in
  let q := mkTermQuery "Memory" "reward" in
  let res := dict2 "Memory_not_reward" (mkEntry 1 [1%Z])
                   "reward_not_Memory" (mkEntry 1 [4%Z]) in
  fst (dissociate_by_terms sqdist3 w "Memory" "reward" fresh)
    = (TermsBody q res, 200%Z)
  ∧ q = mkTermQuery "Memory" "reward"
  ∧ trace (snd (dissociate_by_terms sqdist3 w "Memory" "reward" fresh)) =
      [ SetSearchPath; TermsANotB "Memory" "reward"; TermsBNotA "Memory" "reward" ]
  ∧ ∀ s : Store Z,
      a_not_b_query s "Memory" "reward" = a_not_b_query s "memory" "reward"
      ∧ b_not_a_query s "Memory" "reward" = b_not_a_query s "memory" "reward".
Proof.
  intros w q res.
  assert (fst (dissociate_by_terms sqdist3 w "Memory" "reward" fresh)
          = (TermsBody q res, 200%Z)) as Hr by (vm_compute; reflexivity).
  split; [exact Hr |].
  exact (echo_is_the_bound_text sqdist3 w fresh "Memory" "reward" q res 200%Z Hr).
Defined.

(** The request ("_", "memory") has a blank first term; it is answered
    with status 200 after both statements were sent to the store. *)
Lemma blank_term_answered_200 :
  let r := dissociate_by_terms sqdist3 (world_up memory_reward)
             "_" "memory" fresh in
  blank (Py.replace "_" " " "_") = true
  ∧ fst r = term_envelope "_" "memory" [] [1; 2; 3]%Z
  ∧ snd (fst r) = 200%Z
  ∧ trace (snd r) =
      [ SetSearchPath; TermsANotB " " "memory"; TermsBNotA " " "memory" ].
Proof. vm_compute. done. Qed.

Lemma blank_terms_are_looked_up_witness :
  let s := memory_reward in
  let w := world_up s in
  (blank (Py.replace "_" " " "_") = true
   ∨ blank (Py.replace "_" " " "memory") = true)
  ∧ snd (fst (dissociate_by_terms sqdist3 w "_" "memory" fresh)) ≠ 400%Z
  ∧ (serves w fresh s →
     fst (dissociate_by_terms sqdist3 w "_" "memory" fresh) =
       term_envelope "_" "memory"
         (a_not_b_query s " " "memory") (b_not_a_query s " " "memory")
     ∧ trace (snd (dissociate_by_terms sqdist3 w "_" "memory" fresh)) =
         (trace fresh ++ term_statements "_" "memory")%list).
Proof.
  intros s w.
  assert (blank (Py.replace "_" " " "_") = true
          ∨ blank (Py.replace "_" " " "memory") = true) as Hb
    by (left; reflexivity).
  split; [exact Hb |].
  exact (blank_terms_are_looked_up sqdist3 w s fresh "_" "memory" Hb).
Defined.

(** The request ("Memory", "reward") has an upper-case letter and no
    underscore: its labels are those the echoed criteria give. *)
Lemma upper_case_labels_agree :
  has_upper "Memory" = true
  ∧ ∃ q res,
      fst (dissociate_by_terms sqdist3 (world_up memory_reward)
             "Memory" "reward" fresh) = (TermsBody q res, 200%Z)
      ∧ label "Memory" "reward" = label (q_term_a q) (q_term_b q)
      ∧ label "reward" "Memory" = label (q_term_b q) (q_term_a q).
Proof.
  split; [reflexivity |]. eexists _, _.
  split; [reflexivity |]. split; reflexivity.
Qed.

Lemma labels_are_raw_witness :
  let w := world_up memory_reward in
  let q := mkTermQuery "working memory" "reward" in
  let res := dict2 "working_memory_not_reward" (mkEntry 0 ([] : list Z))
                   "reward_not_working_memory" (mkEntry 3 [2; 3; 4]%Z) in
  fst (dissociate_by_terms sqdist3 w "working_memory" "reward" fresh)
    = (TermsBody q res, 200%Z)
  ∧ (∀ k, is_Some (res !! k) ↔
          k = "working_memory_not_reward" ∨ k = "reward_not_working_memory")
  ∧ "working_memory_not_reward" ≠ label (q_term_a q) (q_term_b q)
  ∧ "reward_not_working_memory" ≠ label (q_term_b q) (q_term_a q).
Proof.
  intros w q res.
  assert (fst (dissociate_by_terms sqdist3 w "working_memory" "reward" fresh)
          = (TermsBody q res, 200%Z)) as Hr by (vm_compute; reflexivity).
  split; [exact Hr |].
  destruct (labels_are_raw sqdist3 w fresh "working_memory" "reward" q res 200%Z Hr)
    as (Hk & _ & Hu & _).
  split; [exact Hk |]. apply Hu. left. reflexivity.
Defined.

(** A remark on the dict display of the results.  The two labels of a
    request can be one string, as for a term dissociated with itself or for
    the request ("x_not_x", "x"); the display then keeps one entry, the
    b-not-a one. *)
Remark colliding_labels_keep_b_not_a {V} (k : string) (v1 v2 : V) :
  label "x_not_x" "x" = label "x" "x_not_x"
  ∧ dict2 k v1 k v2 = {[ k := v2 ]}.
Proof.
  split; [reflexivity |]. unfold dict2. by rewrite insert_insert_eq.
Qed.

(** ** The coordinate endpoint *)

Section ParseFacts.
Variable py_float : string → option Py.Float.

Lemma float_raises_ValueError t e :
  float py_float t = Py.Raise e → Py.exn_class e = Py.ValueError.
Proof. unfold float. destruct (py_float t); [done |]. by intros [= <-]. Qed.

Lemma float_returns t x : float py_float t = Py.Return x ↔ py_float t = Some x.
Proof. unfold float. destruct (py_float t); split; congruence. Qed.

(** Unpacking raises nothing but [ValueError]. *)
Lemma unpack3_raises_ValueError parts e :
  unpack3 py_float parts = Py.Raise e → Py.exn_class e = Py.ValueError.
Proof.
  unfold unpack3.
  repeat match goal with
    | |- context [match ?l with [] => _ | _ :: _ => _ end] => destruct l
    | |- context [float py_float ?t] =>
        let E := fresh "E" in
        destruct (float py_float t) eqn:E;
        [| apply float_raises_ValueError in E]
    end;
    intros [= <-]; done.
Qed.

(** Unpacking returns exactly on three components that all convert. *)
Lemma unpack3_returns parts x y z :
  unpack3 py_float parts = Py.Return (x, y, z) ↔
  ∃ a b c, parts = [a; b; c]
           ∧ py_float a = Some x ∧ py_float b = Some y ∧ py_float c = Some z.
Proof.
  split.
  - unfold unpack3.
    destruct parts as [|a [|b [|c [|d rest]]]];
      repeat match goal with
        | |- context [float py_float ?t] =>
            let E := fresh "E" in
            destruct (float py_float t) eqn:E;
            [apply float_returns in E |]
        end; try done.
    intros [= -> -> ->]. by exists a, b, c.
  - intros (a & b & c & -> & Ha & Hb & Hc). unfold unpack3.
    apply float_returns in Ha, Hb, Hc. by rewrite Ha, Hb, Hc.
Qed.

Lemma three_numbers_unpack3 coords :
  three_numbers py_float coords ↔
  ∃ xyz, unpack3 py_float (Py.split "_" coords) = Py.Return xyz.
Proof.
  split.
  - intros (a & b & c & Hs & [x Hx] & [y Hy] & [z Hz]).
    exists (x, y, z). apply unpack3_returns. by exists a, b, c.
  - intros ([[x y] z] & (a & b & c & Hs & Ha & Hb & Hc)%unpack3_returns).
    exists a, b, c. by rewrite Ha, Hb, Hc.
Qed.

End ParseFacts.

Section CoordinateFacts.
Context {K : Type} `{StudyKey K}.
Variable sqdist : Point → Point → option Q.
Variable py_float : string → option Py.Float.
Variable w : World K.

(** A coordinate request whose strings parse, against a reachable store. *)
Lemma dissociate_by_coordinates_served coords_a coords_b p eng p' s
    x1 y1 z1 x2 y2 z2 :
  unpack3 py_float (Py.split "_" coords_a) = Py.Return (x1, y1, z1) →
  unpack3 py_float (Py.split "_" coords_b) = Py.Return (x2, y2, z2) →
  get_engine w p = (Py.Return eng, p') → connect w eng = Py.Return s →
  dissociate_by_coordinates sqdist py_float w coords_a coords_b p =
    (coord_envelope (x1, y1, z1) (x2, y2, z2)
       (coords_a_not_b_query sqdist s x1 y1 z1 x2 y2 z2 8 8)
       (coords_b_not_a_query sqdist s x1 y1 z1 x2 y2 z2 8 8),
     mkProcess (Some eng)
       (trace p ++ coord_statements (x1, y1, z1) (x2, y2, z2))).
Proof.
  intros Ha Hb Hg Hc.
  unfold dissociate_by_coordinates, dissociate_by_coordinates_try,
    mbind, M_bind, parse_coords.
  rewrite Ha, Hb, Hg. unfold begin. rewrite Hc. simpl.
  rewrite (get_engine_returns _ _ _ _ Hg). simpl.
  unfold jsonify. by rewrite <- !(assoc_L (++)).
Qed.

(** The coordinate endpoint answers with an envelope built from two
    answers of the store, or with an error body. *)
Lemma dissociate_by_coordinates_cases coords_a coords_b p :
  (∃ s x1 y1 z1 x2 y2 z2,
     fst (dissociate_by_coordinates sqdist py_float w coords_a coords_b p) =
       coord_envelope (x1, y1, z1) (x2, y2, z2)
         (coords_a_not_b_query sqdist s x1 y1 z1 x2 y2 z2 8 8)
         (coords_b_not_a_query sqdist s x1 y1 z1 x2 y2 z2 8 8))
  ∨ (∃ msg st,
       fst (dissociate_by_coordinates sqdist py_float w coords_a coords_b p)
       = (ErrorBody msg, st)).
Proof.
  destruct (unpack3 py_float (Py.split "_" coords_a)) as [[[x1 y1] z1]|e] eqn:Ha;
    [destruct (unpack3 py_float (Py.split "_" coords_b))
       as [[[x2 y2] z2]|e] eqn:Hb;
     [destruct (get_engine w p) as [[eng|e] p'] eqn:Hg;
      [destruct (connect w eng) as [s|e] eqn:Hc |] |] |].
  - left. exists s, x1, y1, z1, x2, y2, z2.
    by rewrite (dissociate_by_coordinates_served _ _ _ _ _ _ _ _ _ _ _ _ Ha Hb Hg Hc).
  - right. unfold dissociate_by_coordinates, dissociate_by_coordinates_try,
      mbind, M_bind, parse_coords.
    rewrite Ha, Hb, Hg. unfold begin. rewrite Hc. simpl.
    destruct (Py.exn_class e); eauto.
  - right. unfold dissociate_by_coordinates, dissociate_by_coordinates_try,
      mbind, M_bind, parse_coords.
    rewrite Ha, Hb, Hg. simpl. destruct (Py.exn_class e); eauto.
  - right. unfold dissociate_by_coordinates, dissociate_by_coordinates_try,
      mbind, M_bind, parse_coords.
    rewrite Ha, Hb. simpl. destruct (Py.exn_class e); eauto.
  - right. unfold dissociate_by_coordinates, dissociate_by_coordinates_try,
      mbind, M_bind, parse_coords.
    rewrite Ha. simpl. destruct (Py.exn_class e); eauto.
Qed.

Lemma elem_of_coord_subquery (s : Store K) x y z tol k :
  k ∈ coord_subquery sqdist s x y z tol ↔
  ∃ r, r ∈ coordinates s ∧ c_study_id r = k
       ∧ ST_DWithin sqdist (c_geom r) (ST_MakePoint x y z) tol = true.
Proof.
  unfold coord_subquery. rewrite list_elem_of_fmap. split.
  - intros (r & -> & [Hr Hin]%list_elem_of_filter). eauto.
  - intros (r & Hin & <- & Hr). exists r. split; [done |].
    by apply list_elem_of_filter.
Qed.

Lemma elem_of_coords_a_not_b_query (s : Store K) x1 y1 z1 x2 y2 z2 t1 t2 k :
  k ∈ coords_a_not_b_query sqdist s x1 y1 z1 x2 y2 z2 t1 t2 ↔
  k ∈ coord_subquery sqdist s x1 y1 z1 t1
  ∧ k ∉ coord_subquery sqdist s x2 y2 z2 t2.
Proof.
  unfold coords_a_not_b_query.
  rewrite distinct_ordered_elem_of, list_elem_of_fmap.
  rewrite elem_of_coord_subquery. split.
  - intros (r & -> & [[Hr Hn] Hin]%list_elem_of_filter). eauto.
  - intros [(r & Hin & <- & Hr) Hn]. exists r. split; [done |].
    by apply list_elem_of_filter.
Qed.

Lemma radius_nonneg (t : ToleranceRadius) : (0 <= radius t)%Q.
Proof. unfold radius, Qle. simpl. lia. Qed.

Lemma ST_DWithin_mono g p (t1 t2 : ToleranceRadius) :
  (radius t1 <= radius t2)%Q →
  ST_DWithin sqdist g p t1 = true → ST_DWithin sqdist g p t2 = true.
Proof.
  intros H12. unfold ST_DWithin. destruct (sqdist g p) as [d|]; [| done].
  rewrite !Qle_bool_iff. intros Hd.
  apply Qle_trans with (radius t1 * radius t1)%Q; [done |].
  apply Qmult_le_compat_nonneg; split; auto using radius_nonneg.
Qed.

Lemma coord_subquery_mono (s : Store K) x y z (t1 t2 : ToleranceRadius) :
  (radius t1 <= radius t2)%Q →
  coord_subquery sqdist s x y z t1 ⊆ coord_subquery sqdist s x y z t2.
Proof.
  intros H12 k. rewrite !elem_of_coord_subquery.
  intros (r & Hin & Hk & Hd). exists r. eauto using ST_DWithin_mono.
Qed.

End CoordinateFacts.

(** A strictly ascending list is what an ordered duplicate-free one is. *)
Lemma strictly_ascending {K : Type} `{StudyKey K} (l : list K) :
  StronglySorted key_le l → NoDup l → StronglySorted (strict key_le) l.
Proof.
  induction 1 as [|x l Hl IH Hx]; intros Hnd; [constructor |].
  pose proof (NoDup_cons_1_1 _ _ Hnd) as Hxl.
  apply NoDup_cons_1_2 in Hnd. constructor; [by apply IH |].
  apply List.Forall_forall. intros y Hy. rewrite List.Forall_forall in Hx.
  split; [by apply Hx |]. intros Hyx.
  apply Hxl. replace x with y; [by apply list_elem_of_In |].
  apply (anti_symm key_le); [done | by apply Hx].
Qed.

Section CoordinateClaims.
Context {K : Type} `{StudyKey K}.
Variable sqdist : Point → Point → option Q.
Variable py_float : string → option Py.Float.
Variable w : World K.


(** C7. In every response of either endpoint that carries results, each
    study list is in strictly ascending order of study identifier (hence
    ordered and duplicate-free), and each count is the length of its
    list. *)
Theorem study_lists_ascending (a b : string) (p : Process) :
  (∀ q res st k e,
     fst (dissociate_by_terms sqdist w a b p) = (TermsBody q res, st) →
     res !! k = Some e →
     StronglySorted (strict key_le) (studies e)
     ∧ StronglySorted key_le (studies e)
     ∧ NoDup (studies e)
     ∧ count e = length (studies e))
  ∧ (∀ q res st k e,
       fst (dissociate_by_coordinates sqdist py_float w a b p)
         = (CoordsBody q res, st) →
       res !! k = Some e →
       StronglySorted (strict key_le) (ce_studies e)
       ∧ StronglySorted key_le (ce_studies e)
       ∧ NoDup (ce_studies e)
       ∧ ce_count e = length (ce_studies e)).
Proof.
  split; intros q res st k e Hr Hk.
  - destruct (dissociate_by_terms_cases sqdist w a b p)
      as [(s & Hs) | (msg & Hm & _)]; [| rewrite Hm in Hr; discriminate].
    rewrite (dissociate_by_terms_response _ _ _ _ _ _ Hs) in Hr.
    unfold term_envelope in Hr. injection Hr as <- <- <-.
    apply dict2_lookup in Hk as [-> | ->]; simpl;
      (split_and!;
       [ apply strictly_ascending | | | done ];
       try apply distinct_ordered_sorted; apply distinct_ordered_NoDup).
  - destruct (dissociate_by_coordinates_cases sqdist py_float w a b p)
      as [(s & x1 & y1 & z1 & x2 & y2 & z2 & Hs) | (msg & st' & Hm)];
      [| rewrite Hm in Hr; discriminate].
    rewrite Hs in Hr. unfold coord_envelope in Hr. injection Hr as <- <- <-.
    apply dict2_lookup in Hk as [-> | ->]; simpl;
      (split_and!;
       [ apply strictly_ascending | | | done ];
       try apply distinct_ordered_sorted; apply distinct_ordered_NoDup).
Qed.

(** C8, as the code has it.  Over one store and for two tolerance values
    [t1 <= t2], the membership set of a sphere under [t2] contains the one
    under [t1].  The a-not-b answer of the statement grows with the
    tolerance of the coordinate it keeps ([tolerance1]) and shrinks with
    the tolerance of the coordinate it excludes ([tolerance2]). *)
Theorem tolerance_monotonicity (s : Store K) (x1 y1 z1 x2 y2 z2 : Py.Float)
    (t t1 t2 : ToleranceRadius) :
  (radius t1 <= radius t2)%Q →
  within sqdist s x1 y1 z1 t1 ⊆ within sqdist s x1 y1 z1 t2
  ∧ coords_a_not_b_query sqdist s x1 y1 z1 x2 y2 z2 t1 t
      ⊆ coords_a_not_b_query sqdist s x1 y1 z1 x2 y2 z2 t2 t
  ∧ coords_a_not_b_query sqdist s x1 y1 z1 x2 y2 z2 t t2
      ⊆ coords_a_not_b_query sqdist s x1 y1 z1 x2 y2 z2 t t1.
Proof.
  intros H12. split_and!; intros k.
  - unfold within. rewrite !distinct_ordered_elem_of.
    by apply coord_subquery_mono.
  - rewrite !elem_of_coords_a_not_b_query. intros [Hin Hout].
    split; [| done].
    by apply (coord_subquery_mono sqdist s x1 y1 z1 t1 t2).
  - rewrite !elem_of_coords_a_not_b_query. intros [Hin Hout].
    split; [done |]. intros Hin1. apply Hout.
    by apply (coord_subquery_mono sqdist s x2 y2 z2 t1 t2).
Qed.

End CoordinateClaims.



Lemma study_lists_ascending_witness :
  let w := world_up scattered in
  let e := mkEntry 3 [1; 2; 3]%Z in
  let ce := mkCoordEntry [Py.Finite 0; Py.Finite 0; Py.Finite 0] 3 [1; 2; 3]%Z in
  (term_subquery scattered "memory" = [3; 1; 2; 1]%Z
   ∧ coord_subquery sqdist3 scattered 0 0 0 8 = [3; 1; 3; 2]%Z)
  ∧ (∃ q res,
       fst (dissociate_by_terms sqdist3 w "memory" "nothing" fresh)
         = (TermsBody q res, 200%Z)
       ∧ res !! "memory_not_nothing" = Some e)
  ∧ (StronglySorted (strict key_le) (studies e)
     ∧ StronglySorted key_le (studies e)
     ∧ NoDup (studies e)
     ∧ count e = length (studies e))
  ∧ (∃ q res,
       fst (dissociate_by_coordinates sqdist3 float_of_integer w
              "0_0_0" "100_0_0" fresh) = (CoordsBody q res, 200%Z)
       ∧ res !! "coords_a_not_b" = Some ce)
  ∧ (StronglySorted (strict key_le) (ce_studies ce)
     ∧ StronglySorted key_le (ce_studies ce)
     ∧ NoDup (ce_studies ce)
     ∧ ce_count ce = length (ce_studies ce)).
Proof.
  intros w e ce.
  assert (∃ q res,
            fst (dissociate_by_terms sqdist3 w "memory" "nothing" fresh)
              = (TermsBody q res, 200%Z)
            ∧ res !! "memory_not_nothing" = Some e) as Ht.
  { eexists _, _. split; [reflexivity |]. vm_compute. reflexivity. }
  assert (∃ q res,
            fst (dissociate_by_coordinates sqdist3 float_of_integer w
                   "0_0_0" "100_0_0" fresh) = (CoordsBody q res, 200%Z)
            ∧ res !! "coords_a_not_b" = Some ce) as Hc.
  { eexists _, _. split; [reflexivity |]. vm_compute. reflexivity. }
  split; [split; vm_compute; reflexivity |].
  split; [exact Ht |]. split.
  { destruct Ht as (q & res & Hr & Hk).
    exact (proj1 (study_lists_ascending sqdist3 float_of_integer w
                    "memory" "nothing" fresh)
             q res 200%Z "memory_not_nothing" e Hr Hk). }
  split; [exact Hc |].
  destruct Hc as (q & res & Hr & Hk).
  exact (proj2 (study_lists_ascending sqdist3 float_of_integer w
                  "0_0_0" "100_0_0" fresh)
           q res 200%Z "coords_a_not_b" ce Hr Hk).
Defined.

(** One study, active 5 mm from the first coordinate and 95 mm from the
    second.  The request ("0_0_0", "100_0_0") is evaluated at the tolerance
    8 and returns the study as a-not-b, as the set difference of the two
    membership sets under 8 has it; under the smaller tolerance 1 that
    difference is empty.  The a-not-b set grew with the tolerance. *)
Lemma a_not_b_grows_with_tolerance :
  let r := dissociate_by_coordinates sqdist3 float_of_integer
             (world_up one_point) "0_0_0" "100_0_0" fresh in
  ∃ q res e,
    fst r = (CoordsBody q res, 200%Z)
    ∧ q_tolerance_mm q = 8%N
    ∧ res !! "coords_a_not_b" = Some e
    ∧ ce_studies e = [1%Z]
    ∧ a_not_b_under sqdist3 one_point (finite3 0 0 0) (finite3 100 0 0) 8
      = ce_studies e
    ∧ (radius 1 <= radius 8)%Q
    ∧ a_not_b_under sqdist3 one_point (finite3 0 0 0) (finite3 100 0 0) 1 = []
    ∧ ¬ (ce_studies e
           ⊆ a_not_b_under sqdist3 one_point
               (finite3 0 0 0) (finite3 100 0 0) 1).
Proof.
  intros r. subst r.
  exists (mkCoordQuery [Py.Finite 0; Py.Finite 0; Py.Finite 0]
                       [Py.Finite 100; Py.Finite 0; Py.Finite 0] 8).
  eexists. exists (mkCoordEntry [Py.Finite 0; Py.Finite 0; Py.Finite 0] 1 [1%Z]).
  split; [reflexivity |]. split; [reflexivity |].
  split; [vm_compute; reflexivity |]. split; [reflexivity |].
  split; [vm_compute; reflexivity |]. split; [vm_compute; discriminate |].
  assert (a_not_b_under sqdist3 one_point (finite3 0 0 0) (finite3 100 0 0) 1
          = []) as E1 by (vm_compute; reflexivity).
  split; [exact E1 |]. rewrite E1. cbn [ce_studies]. intros Hsub.
  specialize (Hsub 1%Z). rewrite elem_of_nil in Hsub. apply Hsub. by left.
Qed.

Lemma tolerance_monotonicity_witness :
  let t1 : ToleranceRadius := 1%N in
  let t8 : ToleranceRadius := 8%N in
  (radius t1 <= radius t8)%Q
  ∧ (within sqdist3 scattered 0 0 0 t1 ⊆ within sqdist3 scattered 0 0 0 t8
     ∧ coords_a_not_b_query sqdist3 scattered 0 0 0 3 0 0 t1 t1
         ⊆ coords_a_not_b_query sqdist3 scattered 0 0 0 3 0 0 t8 t1
     ∧ coords_a_not_b_query sqdist3 scattered 0 0 0 3 0 0 t1 t8
         ⊆ coords_a_not_b_query sqdist3 scattered 0 0 0 3 0 0 t1 t1)
  ∧ within sqdist3 scattered 0 0 0 t1 = [1%Z]
  ∧ within sqdist3 scattered 0 0 0 t8 = [1; 2; 3]%Z
  ∧ coords_a_not_b_query sqdist3 scattered 0 0 0 3 0 0 t1 t1 = [1%Z]
  ∧ coords_a_not_b_query sqdist3 scattered 0 0 0 3 0 0 t8 t1 = [1; 2]%Z
  ∧ coords_a_not_b_query sqdist3 scattered 0 0 0 3 0 0 t1 t8 = [].
Proof.
  intros t1 t8.
  assert (radius t1 <= radius t8)%Q as H18 by (vm_compute; discriminate).
  split; [exact H18 |]. split.
  - exact (tolerance_monotonicity sqdist3 scattered 0 0 0 3 0 0 t1 t1 t8 H18).
  - split_and!; vm_compute; reflexivity.
Defined.

(** * Further properties of the application *)

(** ** The engine *)

Lemma prefix_app (p r : string) : String.prefix p (p +:+ r) = true.
Proof.
  induction p as [|c p IH]; simpl; [by destruct r |].
  destruct (ascii_dec c c); [done | congruence].
Qed.

Lemma substring_all (t : string) : String.substring 0 (String.length t) t = t.
Proof. induction t as [|c t IH]; simpl; [done | by rewrite IH]. Qed.

Lemma drop_app (p r : string) : Py.drop (String.length p) (p +:+ r) = r.
Proof.
  unfold Py.drop. induction p as [|c p IH]; simpl.
  - rewrite Nat.sub_0_r. apply substring_all.
  - exact IH.
Qed.

Section EngineFacts.
Context {K : Type}.
Variable w : World K.

(** X1. The scheme of the configured URL.  When [get_engine], with no
    engine yet, returns an engine, that engine is stored in the process,
    [DB_URL] holds a non-empty URL, and the URL of the engine is that URL
    with a leading "postgres://" replaced by "postgresql://": a URL
    "postgres://rest" has become "postgresql://rest" and any URL that does
    not start with "postgres://" is kept as it is. *)
Theorem get_engine_scheme (p p' : Process) (e : Engine) :
  _engine p = None → get_engine w p = (Py.Return e, p') →
  p' = mkProcess (Some e) (trace p)
  ∧ ∃ url, DB_URL w = Some url ∧ url ≠ ""
           ∧ (∀ rest, url = "postgres://" +:+ rest →
                      engine_url e = "postgresql://" +:+ rest)
           ∧ (Py.startswith "postgres://" url = false → engine_url e = url).
Proof.
  intros Hp Hg. split; [exact (get_engine_returns _ _ _ _ Hg) |].
  unfold get_engine, raise in Hg. rewrite Hp in Hg.
  destruct (DB_URL w) as [[|c u]|]; try done.
  remember (String c u) as url eqn:Hurl. cbv zeta in Hg.
  exists url. split; [done |]. split; [by rewrite Hurl |].
  injection Hg as <- _. cbn [engine_url]. split.
  - intros rest ->. unfold Py.startswith.
    rewrite (prefix_app "postgres://" rest).
    change 11 with (String.length "postgres://").
    by rewrite (drop_app "postgres://" rest).
  - by intros ->.
Qed.

(** X2. The engine [get_engine] creates never keeps the scheme
    "postgres://". *)
Theorem get_engine_never_postgres (p p' : Process) (e : Engine) :
  _engine p = None → get_engine w p = (Py.Return e, p') →
  Py.startswith "postgres://" (engine_url e) = false.
Proof.
  intros Hp Hg. unfold get_engine, raise in Hg. rewrite Hp in Hg.
  destruct (DB_URL w) as [[|c u]|]; try done.
  remember (String c u) as url eqn:Hurl. cbv zeta in Hg.
  destruct (Py.startswith "postgres://" url) eqn:Hs;
    injection Hg as <- _; cbn [engine_url].
  - reflexivity.
  - exact Hs.
Qed.

End EngineFacts.

Lemma get_engine_scheme_witness :
  let w := world_up memory_reward in
  let e := mkEngine "postgresql://ns@db/neurosynth" in
  (_engine fresh = None
   ∧ get_engine w fresh = (Py.Return e, mkProcess (Some e) []))
  ∧ mkProcess (Some e) [] = mkProcess (Some e) (trace fresh)
  ∧ ∃ url, DB_URL w = Some url ∧ url ≠ ""
           ∧ (∀ rest, url = "postgres://" +:+ rest →
                      engine_url e = "postgresql://" +:+ rest)
           ∧ (Py.startswith "postgres://" url = false → engine_url e = url).
Proof.
  intros w e.
  assert (get_engine w fresh = (Py.Return e, mkProcess (Some e) [])) as Hg
    by reflexivity.
  split; [by split |].
  exact (get_engine_scheme w fresh _ e eq_refl Hg).
Defined.

Lemma get_engine_never_postgres_witness :
  let w := world_up memory_reward in
  let e := mkEngine "postgresql://ns@db/neurosynth" in
  (_engine fresh = None
   ∧ get_engine w fresh = (Py.Return e, mkProcess (Some e) []))
  ∧ Py.startswith "postgres://" (engine_url e) = false.
Proof.
  intros w e.
  assert (get_engine w fresh = (Py.Return e, mkProcess (Some e) [])) as Hg
    by reflexivity.
  split; [by split |].
  exact (get_engine_never_postgres w fresh _ e eq_refl Hg).
Defined.

(** ** Failures of the two dissociation endpoints *)

Section FailureFacts.
Context {K : Type} `{StudyKey K}.
Variable sqdist : Point → Point → option Q.
Variable py_float : string → option Py.Float.
Variable w : World K.

(** X3. Without an engine and with [DB_URL] unset or empty, the term
    endpoint answers 500 with the missing-configuration message, and so
    does the coordinate endpoint for coordinates that parse; the process is
    left as it was. *)
Theorem missing_configuration (a b : string) (p : Process) :
  _engine p = None → DB_URL w = None ∨ DB_URL w = Some "" →
  dissociate_by_terms sqdist w a b p =
    ((ErrorBody "Missing DB_URL (or DATABASE_URL) environment variable.",
      500%Z), p)
  ∧ (three_numbers py_float a → three_numbers py_float b →
     dissociate_by_coordinates sqdist py_float w a b p =
       ((ErrorBody "Missing DB_URL (or DATABASE_URL) environment variable.",
         500%Z), p)).
Proof.
  intros Hp Hu.
  assert (get_engine w p =
            (Py.Raise (Py.mkExn Py.RuntimeError
               "Missing DB_URL (or DATABASE_URL) environment variable."), p))
    as Hg.
  { unfold get_engine, raise. rewrite Hp. by destruct Hu as [-> | ->]. }
  split.
  - unfold dissociate_by_terms, dissociate_by_terms_try, mbind, M_bind.
    by rewrite Hg.
  - intros [[[x1 y1] z1] Ha]%three_numbers_unpack3
           [[[x2 y2] z2] Hb]%three_numbers_unpack3.
    unfold dissociate_by_coordinates, dissociate_by_coordinates_try,
      mbind, M_bind, parse_coords.
    by rewrite Ha, Hb, Hg.
Qed.

(** X4. When connecting fails with an exception [e], the term endpoint
    answers 500 with [str(e)], whatever the class of [e]; no statement was
    sent, and the engine that was created stays in the process. *)
Theorem terms_store_failure (a b : string) (p p' : Process)
    (eng : Engine) (e : Py.Exn) :
  get_engine w p = (Py.Return eng, p') → connect w eng = Py.Raise e →
  dissociate_by_terms sqdist w a b p =
    ((ErrorBody (Py.exn_str e), 500%Z), mkProcess (Some eng) (trace p)).
Proof.
  intros Hg Hc.
  unfold dissociate_by_terms, dissociate_by_terms_try, mbind, M_bind.
  rewrite Hg. unfold begin. rewrite Hc.
  by rewrite (get_engine_returns _ _ _ _ Hg).
Qed.

(** X5. When connecting fails with an exception [e] on a coordinate request
    whose coordinates parse, the answer is 500 with [str(e)], unless [e] is
    a [ValueError]: that one is answered 400 with the invalid-format
    message, as a malformed coordinate is. *)
Theorem coordinates_store_failure (a b : string) (p p' : Process)
    (eng : Engine) (e : Py.Exn) :
  three_numbers py_float a → three_numbers py_float b →
  get_engine w p = (Py.Return eng, p') → connect w eng = Py.Raise e →
  dissociate_by_coordinates sqdist py_float w a b p =
    (match Py.exn_class e with
     | Py.ValueError =>
         (ErrorBody
            "Invalid coordinate format. Use x_y_z format (e.g., '0_-52_26')",
          400%Z)
     | _ => (ErrorBody (Py.exn_str e), 500%Z)
     end,
     mkProcess (Some eng) (trace p)).
Proof.
  intros [[[x1 y1] z1] Ha]%three_numbers_unpack3
         [[[x2 y2] z2] Hb]%three_numbers_unpack3 Hg Hc.
  unfold dissociate_by_coordinates, dissociate_by_coordinates_try,
    mbind, M_bind, parse_coords.
  rewrite Ha, Hb, Hg. unfold begin. rewrite Hc.
  rewrite (get_engine_returns _ _ _ _ Hg).
  by destruct (Py.exn_class e).
Qed.

End FailureFacts.

(** ** What the term queries select *)

Section TermSelection.
Context {K : Type} `{StudyKey K}.

(** X10. The study lists depend on the normalized terms only: two requests
    whose terms agree after underscores are replaced by spaces and case is
    folded get the same two lists from the store. *)
Theorem term_answers_normalized (s : Store K) (a b a' b' : string) :
  normalize a = normalize a' → normalize b = normalize b' →
  a_not_b_query s (Py.replace "_" " " a) (Py.replace "_" " " b)
    = a_not_b_query s (Py.replace "_" " " a') (Py.replace "_" " " b')
  ∧ b_not_a_query s (Py.replace "_" " " a) (Py.replace "_" " " b)
    = b_not_a_query s (Py.replace "_" " " a') (Py.replace "_" " " b').
Proof.
  unfold normalize. intros Ha Hb.
  rewrite <- (a_not_b_query_LOWER s (Py.replace "_" " " a)),
          <- (b_not_a_query_LOWER s (Py.replace "_" " " a)).
  rewrite Ha, Hb.
  by rewrite a_not_b_query_LOWER, b_not_a_query_LOWER.
Qed.

Variable sqdist : Point → Point → option Q.
Variable w : World K.

(** X11. The two directions in the results object.  In the answer of a
    reachable store, when the two labels differ the object has exactly two
    keys, the a-not-b entry under [f"{term_a}_not_{term_b}"] and the
    b-not-a entry under [f"{term_b}_not_{term_a}"]; when the two labels are
    one string, as for a term dissociated with itself, it has that one key
    and holds the b-not-a entry. *)
Theorem term_results_keys (s : Store K) (p : Process) (a b : string) :
  serves w p s →
  let a_not_b :=
    a_not_b_query s (Py.replace "_" " " a) (Py.replace "_" " " b) in
  let b_not_a :=
    b_not_a_query s (Py.replace "_" " " a) (Py.replace "_" " " b) in
  ∃ q res,
    fst (dissociate_by_terms sqdist w a b p) = (TermsBody q res, 200%Z)
    ∧ (label a b ≠ label b a →
       res !! label a b = Some (mkEntry (length a_not_b) a_not_b)
       ∧ res !! label b a = Some (mkEntry (length b_not_a) b_not_a)
       ∧ size res = 2)
    ∧ (label a b = label b a →
       res = {[ label b a := mkEntry (length b_not_a) b_not_a ]}).
Proof.
  intros Hs a_not_b b_not_a.
  rewrite (dissociate_by_terms_response _ _ _ _ _ _ Hs).
  unfold term_envelope. eexists _, _. split; [reflexivity |].
  unfold dict2. split.
  - intros Hne. split_and!.
    + by rewrite lookup_insert_ne, lookup_insert_eq.
    + by rewrite lookup_insert_eq.
    + rewrite map_size_insert_None.
      * by rewrite insert_empty, map_size_singleton.
      * by rewrite lookup_insert_ne, lookup_empty.
  - intros ->. by rewrite insert_insert_eq, insert_empty.
Qed.

(** X12. Two requests in a row.  After a request that reached the store, a
    second request reaches the same store even if [DB_URL] has changed or
    gone, and the trace holds the statements of both requests in order. *)
Theorem terms_then_terms (w' : World K) (s : Store K) (p : Process)
    (a b a' b' : string) :
  serves w p s → connect w' = connect w →
  let r1 := dissociate_by_terms sqdist w a b p in
  let r2 := dissociate_by_terms sqdist w' a' b' (snd r1) in
  fst r2 =
    term_envelope a' b'
      (a_not_b_query s (Py.replace "_" " " a') (Py.replace "_" " " b'))
      (b_not_a_query s (Py.replace "_" " " a') (Py.replace "_" " " b'))
  ∧ trace (snd r2) =
      (trace p ++ term_statements a b ++ term_statements a' b')%list
  ∧ _engine (snd r2) = _engine (snd r1).
Proof.
  intros (eng & p' & Hg & Hc) Hw r1 r2. subst r1 r2.
  rewrite (dissociate_by_terms_served _ _ _ _ _ _ _ _ Hg Hc).
  cbn [snd].
  assert (get_engine w'
            (mkProcess (Some eng) (trace p ++ term_statements a b))
          = (Py.Return eng,
             mkProcess (Some eng) (trace p ++ term_statements a b))) as Hg'
    by reflexivity.
  assert (connect w' eng = Py.Return s) as Hc' by (by rewrite Hw).
  rewrite (dissociate_by_terms_served _ _ _ _ _ _ _ _ Hg' Hc').
  cbn [fst snd trace _engine]. by rewrite <- (assoc_L (++)).
Qed.

End TermSelection.

(** ** Splitting a coordinate string *)

Lemma split_not_nil sep t : Py.split sep t ≠ [].
Proof.
  destruct t as [|c r]; simpl; [done |].
  destruct (Ascii.eqb c sep); [done |]. by destruct (Py.split sep r).
Qed.

(** [split] cuts at every separator and loses nothing: there is one
    component more than there are separators, no component holds a
    separator, and joining the components with the separator gives the
    string back. *)
Lemma split_components (sep : ascii) (t : string) :
  length (Py.split sep t) = S (count_char sep t)
  ∧ Forall (λ part, count_char sep part = 0) (Py.split sep t)
  ∧ join sep (Py.split sep t) = t.
Proof.
  induction t as [|c r (IHlen & IHall & IHjoin)]; simpl.
  - split_and!; [done | by repeat constructor | done].
  - destruct (Ascii.eqb c sep) eqn:Hc; simpl.
    + apply Ascii.eqb_eq in Hc as ->. split_and!.
      * by rewrite IHlen.
      * by constructor.
      * destruct (Py.split sep r) as [|h tl] eqn:Hs;
          [by apply split_not_nil in Hs |].
        by rewrite IHjoin.
    + destruct (Py.split sep r) as [|h tl] eqn:Hs;
        [by apply split_not_nil in Hs |].
      split_and!.
      * exact IHlen.
      * inversion IHall as [|h' tl' Hh Htl]; subst.
        constructor; [| done]. simpl. by rewrite Hc.
      * destruct tl; rewrite <- IHjoin; reflexivity.
Qed.

Section CoordinateSelection.
Context {K : Type} `{StudyKey K}.
Variable sqdist : Point → Point → option Q.
Variable py_float : string → option Py.Float.
Variable w : World K.

(** A response with results comes from two strings that parsed. *)
Lemma coords_body_parsed (a b : string) (p : Process)
    (q : CoordQuery) (res : gmap string (CoordEntry K)) (st : Z) :
  fst (dissociate_by_coordinates sqdist py_float w a b p)
    = (CoordsBody q res, st) →
  (∃ A, unpack3 py_float (Py.split "_" a) = Py.Return A)
  ∧ (∃ B, unpack3 py_float (Py.split "_" b) = Py.Return B).
Proof.
  unfold dissociate_by_coordinates, dissociate_by_coordinates_try,
    mbind, M_bind, parse_coords.
  destruct (unpack3 py_float (Py.split "_" a)) as [A|e] eqn:Ha.
  - destruct (unpack3 py_float (Py.split "_" b)) as [B|e] eqn:Hb; [eauto |].
    destruct A as [[x1 y1] z1].
    by rewrite (unpack3_raises_ValueError _ _ _ Hb).
  - by rewrite (unpack3_raises_ValueError _ _ _ Ha).
Qed.

(** X13. The coordinate endpoint answers 200 only to coordinate strings
    that each hold exactly two underscores. *)
Theorem coordinates_two_underscores (a b : string) (p : Process)
    (q : CoordQuery) (res : gmap string (CoordEntry K)) (st : Z) :
  fst (dissociate_by_coordinates sqdist py_float w a b p)
    = (CoordsBody q res, st) →
  count_char "_" a = 2 ∧ count_char "_" b = 2.
Proof.
  intros Hr.
  assert (∀ t x y z,
            unpack3 py_float (Py.split "_" t) = Py.Return (x, y, z) →
            count_char "_" t = 2) as Hcount.
  { intros t x y z (u & v & v' & Hs & _)%unpack3_returns.
    destruct (split_components "_" t) as (Hlen & _). rewrite Hs in Hlen.
    simpl in Hlen. lia. }
  destruct (coords_body_parsed a b p q res st Hr)
    as ([[[x1 y1] z1] Ha] & [[[x2 y2] z2] Hb]).
  eauto.
Qed.

(** X7. A coordinate response that carries results has status 200 and
    echoes the two parsed coordinates and the tolerance 8, and the trace
    has grown by exactly the three statements of the request. *)
Theorem coordinates_results_sent (a b : string) (p : Process)
    (q : CoordQuery) (res : gmap string (CoordEntry K)) (st : Z) :
  fst (dissociate_by_coordinates sqdist py_float w a b p)
    = (CoordsBody q res, st) →
  st = 200%Z
  ∧ ∃ x1 y1 z1 x2 y2 z2,
      unpack3 py_float (Py.split "_" a) = Py.Return (x1, y1, z1)
      ∧ unpack3 py_float (Py.split "_" b) = Py.Return (x2, y2, z2)
      ∧ q = mkCoordQuery [x1; y1; z1] [x2; y2; z2] 8
      ∧ trace (snd (dissociate_by_coordinates sqdist py_float w a b p))
        = (trace p ++ coord_statements (x1, y1, z1) (x2, y2, z2))%list.
Proof.
  intros Hr.
  destruct (coords_body_parsed a b p q res st Hr)
    as ([[[x1 y1] z1] Ha] & [[[x2 y2] z2] Hb]).
  destruct (get_engine w p) as [[eng|e] p'] eqn:Hg;
    [destruct (connect w eng) as [s|e] eqn:Hc |].
  - rewrite (dissociate_by_coordinates_served
               _ _ _ _ _ _ _ _ _ _ _ _ _ _ _ Ha Hb Hg Hc) in Hr |- *.
    unfold coord_envelope in Hr. cbn [fst] in Hr.
    injection Hr as <- _ <-. split; [done |].
    exists x1, y1, z1, x2, y2, z2. by split_and!.
  - exfalso. revert Hr.
    unfold dissociate_by_coordinates, dissociate_by_coordinates_try,
      mbind, M_bind, parse_coords.
    rewrite Ha, Hb, Hg. unfold begin. rewrite Hc.
    by destruct (Py.exn_class e).
  - exfalso. revert Hr.
    unfold dissociate_by_coordinates, dissociate_by_coordinates_try,
      mbind, M_bind, parse_coords.
    rewrite Ha, Hb, Hg. by destruct (Py.exn_class e).
Qed.

(** X15. Exchanging the two coordinate strings exchanges the two lists:
    over one reachable store, the a-not-b list of (a, b) is the b-not-a
    list of (b, a), and conversely. *)
Theorem coordinates_symmetry (s : Store K) (p q : Process)
    (a b : string) (A B : Py.Float * Py.Float * Py.Float) :
  unpack3 py_float (Py.split "_" a) = Py.Return A →
  unpack3 py_float (Py.split "_" b) = Py.Return B →
  serves w p s → serves w q s →
  ∃ a_not_b b_not_a,
    fst (dissociate_by_coordinates sqdist py_float w a b p)
      = coord_envelope A B a_not_b b_not_a
    ∧ fst (dissociate_by_coordinates sqdist py_float w b a q)
      = coord_envelope B A b_not_a a_not_b.
Proof.
  destruct A as [[x1 y1] z1], B as [[x2 y2] z2].
  intros Ha Hb (eng & p' & Hg & Hc) (eng' & q' & Hg' & Hc').
  rewrite (dissociate_by_coordinates_served
             _ _ _ _ _ _ _ _ _ _ _ _ _ _ _ Ha Hb Hg Hc).
  rewrite (dissociate_by_coordinates_served
             _ _ _ _ _ _ _ _ _ _ _ _ _ _ _ Hb Ha Hg' Hc').
  eexists _, _. split; reflexivity.
Qed.

(** X16. Two coordinate strings that parse to the same point are answered
    with both lists empty. *)
Theorem same_point_both_empty (s : Store K) (p : Process)
    (a b : string) (A : Py.Float * Py.Float * Py.Float) :
  unpack3 py_float (Py.split "_" a) = Py.Return A →
  unpack3 py_float (Py.split "_" b) = Py.Return A →
  serves w p s →
  fst (dissociate_by_coordinates sqdist py_float w a b p)
    = coord_envelope A A [] [].
Proof.
  destruct A as [[x y] z].
  intros Ha Hb (eng & p' & Hg & Hc).
  rewrite (dissociate_by_coordinates_served
             _ _ _ _ _ _ _ _ _ _ _ _ _ _ _ Ha Hb Hg Hc).
  assert (coords_a_not_b_query sqdist s x y z x y z 8 8 = []) as Hnil.
  { apply elem_of_nil_inv. intros k.
    rewrite elem_of_coords_a_not_b_query. tauto. }
  cbn [fst]. unfold coords_b_not_a_query.
  change (distinct_ordered _) with (coords_a_not_b_query sqdist s x y z x y z 8 8).
  by rewrite Hnil.
Qed.

End CoordinateSelection.

(** ** The location endpoint *)

Lemma unpack3_with_returns {A} (conv : string → Py.Outcome A) parts x y z :
  unpack3_with conv parts = Py.Return (x, y, z) ↔
  ∃ a b c, parts = [a; b; c]
           ∧ conv a = Py.Return x ∧ conv b = Py.Return y ∧ conv c = Py.Return z.
Proof.
  split.
  - unfold unpack3_with.
    destruct parts as [|a [|b [|c [|d rest]]]];
      repeat match goal with
        | |- context [conv ?t] => destruct (conv t) eqn:?
        end; try done.
    intros [= -> -> ->]. by exists a, b, c.
  - intros (a & b & c & -> & Ha & Hb & Hc). unfold unpack3_with.
    by rewrite Ha, Hb, Hc.
Qed.

Lemma unpack3_with_raises {A} (conv : string → Py.Outcome A) parts e :
  (∀ t e', conv t = Py.Raise e' → Py.exn_class e' = Py.ValueError) →
  unpack3_with conv parts = Py.Raise e → Py.exn_class e = Py.ValueError.
Proof.
  intros Hconv. unfold unpack3_with.
  repeat match goal with
    | |- context [match ?l with [] => _ | _ :: _ => _ end] => destruct l
    | |- context [conv ?t] =>
        let E := fresh "E" in
        destruct (conv t) eqn:E; [| apply Hconv in E]
    end;
    intros [= <-]; done.
Qed.

Section LocationFacts.
Variable py_int : string → option Z.

Lemma int_returns t n : int py_int t = Py.Return n ↔ py_int t = Some n.
Proof. unfold int. destruct (py_int t); split; congruence. Qed.

Lemma int_raises_ValueError t e :
  int py_int t = Py.Raise e → Py.exn_class e = Py.ValueError.
Proof. unfold int. destruct (py_int t); [done |]. by intros [= <-]. Qed.

(** X17. The location endpoint echoes three integers with status 200
    exactly when its string splits into three components that [int]
    converts; on any other string it raises [ValueError], which nothing in
    the view catches. *)
Theorem get_studies_by_coordinates_spec (coords : string) :
  (∀ x y z,
     get_studies_by_coordinates py_int coords = Py.Return ([x; y; z], 200%Z)
     ↔ ∃ a b c, Py.split "_" coords = [a; b; c]
                ∧ py_int a = Some x ∧ py_int b = Some y ∧ py_int c = Some z)
  ∧ (¬ three_integers py_int coords →
     ∃ e, get_studies_by_coordinates py_int coords = Py.Raise e
          ∧ Py.exn_class e = Py.ValueError).
Proof.
  unfold get_studies_by_coordinates, three_integers.
  destruct (unpack3_with (int py_int) (Py.split "_" coords))
    as [[[x' y'] z']|e] eqn:Hu.
  - apply unpack3_with_returns in Hu as (a & b & c & Hs & Ha & Hb & Hc).
    apply int_returns in Ha, Hb, Hc. split.
    + intros x y z. split.
      * intros [= <- <- <-]. by exists a, b, c.
      * intros (a' & b' & c' & Hs' & Ha' & Hb' & Hc').
        rewrite Hs in Hs'. injection Hs' as <- <- <-. congruence.
    + intros Hbad. exfalso. apply Hbad. exists a, b, c.
      by rewrite Ha, Hb, Hc.
  - split.
    + intros x y z. split; [done |].
      intros (a & b & c & Hs & Ha & Hb & Hc).
      apply int_returns in Ha, Hb, Hc.
      assert (unpack3_with (int py_int) (Py.split "_" coords)
              = Py.Return (x, y, z)) as Hu'
        by (apply unpack3_with_returns; by exists a, b, c).
      congruence.
    + intros _. exists e. split; [done |].
      by apply (unpack3_with_raises _ _ _ int_raises_ValueError Hu).
Qed.

End LocationFacts.

(** ** Instances *)

Lemma three_numbers_example :
  three_numbers float_of_integer "0_-52_26".
Proof.
  exists "0", "-52", "26". split; [reflexivity |].
  split_and!; eexists; reflexivity.
Defined.

Lemma missing_configuration_witness :
  let w := world_unset memory_reward in
  (_engine fresh = None ∧ (DB_URL w = None ∨ DB_URL w = Some ""))
  ∧ dissociate_by_terms sqdist3 w "memory" "reward" fresh =
      ((ErrorBody "Missing DB_URL (or DATABASE_URL) environment variable.",
        500%Z), fresh)
  ∧ (three_numbers float_of_integer "0_-52_26" →
     three_numbers float_of_integer "0_-52_26" →
     dissociate_by_coordinates sqdist3 float_of_integer w
       "0_-52_26" "0_-52_26" fresh =
       ((ErrorBody "Missing DB_URL (or DATABASE_URL) environment variable.",
         500%Z), fresh)).
Proof.
  intros w.
  assert (DB_URL w = None ∨ DB_URL w = Some "") as Hu by (left; reflexivity).
  split; [by split |].
  destruct (missing_configuration sqdist3 float_of_integer w
              "memory" "reward" fresh eq_refl Hu) as [Ht _].
  destruct (missing_configuration sqdist3 float_of_integer w
              "0_-52_26" "0_-52_26" fresh eq_refl Hu) as [_ Hc].
  split; [exact Ht | exact Hc].
Defined.

Lemma terms_store_failure_witness :
  let e := Py.mkExn Py.OperationalError "connection refused" in
  let w : World Z := world_down e in
  let eng := mkEngine "postgresql://ns@db/neurosynth" in
  (get_engine w fresh = (Py.Return eng, mkProcess (Some eng) [])
   ∧ connect w eng = Py.Raise e)
  ∧ dissociate_by_terms sqdist3 w "memory" "reward" fresh =
      ((ErrorBody "connection refused", 500%Z), mkProcess (Some eng) []).
Proof.
  intros e w eng.
  assert (get_engine w fresh = (Py.Return eng, mkProcess (Some eng) [])) as Hg
    by reflexivity.
  assert (connect w eng = Py.Raise e) as Hc by reflexivity.
  split; [by split |].
  exact (terms_store_failure sqdist3 w "memory" "reward" fresh _ eng e Hg Hc).
Defined.

Lemma coordinates_store_failure_witness :
  let e := Py.mkExn Py.ValueError "bad parameter" in
  let w : World Z := world_down e in
  let eng := mkEngine "postgresql://ns@db/neurosynth" in
  (three_numbers float_of_integer "0_-52_26"
   ∧ get_engine w fresh = (Py.Return eng, mkProcess (Some eng) [])
   ∧ connect w eng = Py.Raise e)
  ∧ dissociate_by_coordinates sqdist3 float_of_integer w
      "0_-52_26" "0_-52_26" fresh =
      ((ErrorBody
          "Invalid coordinate format. Use x_y_z format (e.g., '0_-52_26')",
        400%Z), mkProcess (Some eng) []).
Proof.
  intros e w eng.
  assert (get_engine w fresh = (Py.Return eng, mkProcess (Some eng) [])) as Hg
    by reflexivity.
  assert (connect w eng = Py.Raise e) as Hc by reflexivity.
  split; [split_and!; [exact three_numbers_example | exact Hg | exact Hc] |].
  exact (coordinates_store_failure sqdist3 float_of_integer w
           "0_-52_26" "0_-52_26" fresh _ eng e
           three_numbers_example three_numbers_example Hg Hc).
Defined.

Lemma term_answers_normalized_witness :
  (normalize "Working_Memory" = normalize "working memory"
   ∧ normalize "REWARD" = normalize "reward")
  ∧ a_not_b_query memory_reward "Working Memory" "REWARD"
    = a_not_b_query memory_reward "working memory" "reward"
  ∧ b_not_a_query memory_reward "Working Memory" "REWARD"
    = b_not_a_query memory_reward "working memory" "reward".
Proof.
  assert (normalize "Working_Memory" = normalize "working memory") as Ha
    by reflexivity.
  assert (normalize "REWARD" = normalize "reward") as Hb by reflexivity.
  split; [by split |].
  exact (term_answers_normalized memory_reward
           "Working_Memory" "REWARD" "working memory" "reward" Ha Hb).
Defined.

Lemma term_results_keys_witness :
  let s := memory_reward in
  let w := world_up s in
  serves w fresh s
  ∧ ∃ q res,
      fst (dissociate_by_terms sqdist3 w "memory" "memory" fresh)
        = (TermsBody q res, 200%Z)
      ∧ (label "memory" "memory" ≠ label "memory" "memory" →
         res !! label "memory" "memory"
           = Some (mkEntry (length (a_not_b_query s "memory" "memory"))
                           (a_not_b_query s "memory" "memory"))
         ∧ res !! label "memory" "memory"
           = Some (mkEntry (length (b_not_a_query s "memory" "memory"))
                           (b_not_a_query s "memory" "memory"))
         ∧ size res = 2)
      ∧ (label "memory" "memory" = label "memory" "memory" →
         res = {[ label "memory" "memory" :=
                    mkEntry (length (b_not_a_query s "memory" "memory"))
                            (b_not_a_query s "memory" "memory") ]}).
Proof.
  intros s w.
  assert (serves w fresh s) as Hs by (eexists _, _; split; reflexivity).
  split; [exact Hs |].
  exact (term_results_keys sqdist3 w s fresh "memory" "memory" Hs).
Defined.

Lemma terms_then_terms_witness :
  let s := memory_reward in
  let w := world_up s in
  let w' := world_unset s in
  (serves w fresh s ∧ connect w' = connect w)
  ∧ let r1 := dissociate_by_terms sqdist3 w "memory" "reward" fresh in
    let r2 := dissociate_by_terms sqdist3 w' "reward" "memory" (snd r1) in
    fst r2 =
      term_envelope "reward" "memory"
        (a_not_b_query s "reward" "memory") (b_not_a_query s "reward" "memory")
    ∧ trace (snd r2) =
        (trace fresh ++ term_statements "memory" "reward"
           ++ term_statements "reward" "memory")%list
    ∧ _engine (snd r2) = _engine (snd r1).
Proof.
  intros s w w'.
  assert (serves w fresh s) as Hs by (eexists _, _; split; reflexivity).
  assert (connect w' = connect w) as Hw by reflexivity.
  split; [by split |].
  exact (terms_then_terms sqdist3 w w' s fresh
           "memory" "reward" "reward" "memory" Hs Hw).
Defined.

Lemma coordinates_two_underscores_witness :
  let w := world_up one_point in
  (∃ q res,
     fst (dissociate_by_coordinates sqdist3 float_of_integer w
            "0_0_0" "100_0_0" fresh) = (CoordsBody q res, 200%Z))
  ∧ count_char "_" "0_0_0" = 2 ∧ count_char "_" "100_0_0" = 2.
Proof.
  intros w.
  assert (fst (dissociate_by_coordinates sqdist3 float_of_integer w
                 "0_0_0" "100_0_0" fresh)
          = coord_envelope (finite3 0 0 0) (finite3 100 0 0) [1%Z] []) as Hr
    by (vm_compute; reflexivity).
  split; [eexists _, _; exact Hr |].
  exact (coordinates_two_underscores sqdist3 float_of_integer w
           "0_0_0" "100_0_0" fresh _ _ _ Hr).
Defined.

Lemma coordinates_symmetry_witness :
  let s := one_point in
  let w := world_up s in
  let A := finite3 0 0 0 in
  let B := finite3 100 0 0 in
  (unpack3 float_of_integer (Py.split "_" "0_0_0") = Py.Return A
   ∧ unpack3 float_of_integer (Py.split "_" "100_0_0") = Py.Return B
   ∧ serves w fresh s)
  ∧ ∃ a_not_b b_not_a,
      fst (dissociate_by_coordinates sqdist3 float_of_integer w
             "0_0_0" "100_0_0" fresh) = coord_envelope A B a_not_b b_not_a
      ∧ fst (dissociate_by_coordinates sqdist3 float_of_integer w
               "100_0_0" "0_0_0" fresh) = coord_envelope B A b_not_a a_not_b.
Proof.
  intros s w A B.
  assert (unpack3 float_of_integer (Py.split "_" "0_0_0") = Py.Return A)
    as Ha by reflexivity.
  assert (unpack3 float_of_integer (Py.split "_" "100_0_0") = Py.Return B)
    as Hb by reflexivity.
  assert (serves w fresh s) as Hs by (eexists _, _; split; reflexivity).
  split; [by split_and! |].
  exact (coordinates_symmetry sqdist3 float_of_integer w s fresh fresh
           "0_0_0" "100_0_0" A B Ha Hb Hs Hs).
Defined.

Lemma same_point_both_empty_witness :
  let s := one_point in
  let w := world_up s in
  let A := finite3 5 0 0 in
  (unpack3 float_of_integer (Py.split "_" "5_0_0") = Py.Return A
   ∧ unpack3 float_of_integer (Py.split "_" "+5_0_0") = Py.Return A
   ∧ serves w fresh s)
  ∧ fst (dissociate_by_coordinates sqdist3 float_of_integer w
           "5_0_0" "+5_0_0" fresh) = coord_envelope A A [] [].
Proof.
  intros s w A.
  assert (unpack3 float_of_integer (Py.split "_" "5_0_0") = Py.Return A)
    as Ha by reflexivity.
  assert (unpack3 float_of_integer (Py.split "_" "+5_0_0") = Py.Return A)
    as Hb by reflexivity.
  assert (serves w fresh s) as Hs by (eexists _, _; split; reflexivity).
  split; [by split_and! |].
  exact (same_point_both_empty sqdist3 float_of_integer w s fresh
           "5_0_0" "+5_0_0" A Ha Hb Hs).
Defined.

Lemma get_studies_by_coordinates_spec_witness :
  get_studies_by_coordinates int_of_integer "0_-52_26"
    = Py.Return ([0; -52; 26]%Z, 200%Z)
  ∧ ¬ three_integers int_of_integer "1_2"
  ∧ ∃ e, get_studies_by_coordinates int_of_integer "1_2" = Py.Raise e
         ∧ Py.exn_class e = Py.ValueError.
Proof.
  assert (¬ three_integers int_of_integer "1_2") as Hbad.
  { intros (a & b & c & Hs & _). vm_compute in Hs. discriminate. }
  split; [| split; [exact Hbad |]].
  - apply (proj1 (get_studies_by_coordinates_spec int_of_integer "0_-52_26")).
    exists "0", "-52", "26". by split_and!.
  - exact (proj2 (get_studies_by_coordinates_spec int_of_integer "1_2") Hbad).
Defined.

Lemma coordinates_results_sent_witness :
  let w := world_up scattered in
  let q := mkCoordQuery [Py.Finite 0; Py.Finite 0; Py.Finite 0]
                        [Py.Finite 100; Py.Finite 0; Py.Finite 0] 8 in
  (∃ res,
     fst (dissociate_by_coordinates sqdist3 float_of_integer w
            "0_0_0" "100_0_0" fresh) = (CoordsBody q res, 200%Z))
  ∧ ∃ x1 y1 z1 x2 y2 z2,
      unpack3 float_of_integer (Py.split "_" "0_0_0") = Py.Return (x1, y1, z1)
      ∧ unpack3 float_of_integer (Py.split "_" "100_0_0")
        = Py.Return (x2, y2, z2)
      ∧ q = mkCoordQuery [x1; y1; z1] [x2; y2; z2] 8
      ∧ trace (snd (dissociate_by_coordinates sqdist3 float_of_integer w
                      "0_0_0" "100_0_0" fresh))
        = (trace fresh ++ coord_statements (x1, y1, z1) (x2, y2, z2))%list.
Proof.
  intros w q.
  assert (∃ res,
            fst (dissociate_by_coordinates sqdist3 float_of_integer w
                   "0_0_0" "100_0_0" fresh) = (CoordsBody q res, 200%Z)) as Hr
    by (eexists; reflexivity).
  split; [exact Hr |]. destruct Hr as [res Hr].
  exact (proj2 (coordinates_results_sent sqdist3 float_of_integer w
                  "0_0_0" "100_0_0" fresh q res 200%Z Hr)).
Defined.
